(** * The caching and batch-orchestration layer of [PDFProcessor] (src/app.py)

    A shallow embedding of the three methods of [PDFProcessor]
    ([create_index_from_pdf], [process_pdf], [batch_process_pdfs]) and of the
    two dictionaries they mutate, followed by the properties of the
    specification that concern them.

    - Python dictionaries with string keys are [gmap string _].
    - The methods are computations in a state-and-exception monad [Py]:
      the state holds the [PDFProcessor] object, the state of the outside
      world the collaborators act on, and a ghost trace of collaborator
      calls; [try: ... except Exception as e: ...] is [try_except].
    - The external libraries (httpx, the file system, LlamaIndex) are the
      fields of the class [Collaborators]: every call may read and change
      the world and either returns or raises. *)

From stdpp Require Import gmap strings list pretty.

Open Scope string_scope.

(** ** Python exceptions *)

(** An exception instance: its class and the text [str(e)] yields.
    Only instances of [Exception] are modelled: [KeyboardInterrupt],
    [SystemExit] and the like are not failures of a collaborator and are
    not caught by [except Exception]. *)
Record PyExc := MkExc { exc_class : string; exc_msg : string }.

(** [Exception(msg)] *)
Definition Exception (msg : string) : PyExc := MkExc "Exception" msg.

(** [str(e)] *)
Definition str (e : PyExc) : string := exc_msg e.

(** ** Collaborators *)

(** The external operations the methods call, in source order. *)
Inductive Collab :=
  | HttpxGet        (* httpx.get(pdf_url).content            : Document Fetcher *)
  | WriteFile       (* with open(path, "wb") as f: f.write() *)
  | LoadData        (* SimpleDirectoryReader(...).load_data() *)
  | FromDocuments   (* VectorStoreIndex.from_documents(...)  : Index Builder *)
  | OsRemove        (* os.remove(path) *)
  | AsQueryEngine   (* index.as_query_engine(...) *)
  | EngineQuery.    (* query_engine.query(query)             : Query Engine *)

#[global] Instance Collab_eq_dec : EqDecision Collab.
Proof. solve_decision. Defined.

(** One entry of the ghost trace: which collaborator was called, on behalf
    of which source, and whether the call returned ([true]) or raised. *)
Record Event := Call { ev_collab : Collab; ev_source : string; ev_ok : bool }.

(** [SentenceSplitter(chunk_size=..., chunk_overlap=...)] *)
Record SentenceSplitter := { chunk_size : nat; chunk_overlap : nat }.

Class Collaborators := {
  World : Type;
  Bytes : Type;
  Documents : Type;
  Index : Type;
  QueryEngine : Type;
  Response : Type;
  httpx_get : string -> World -> (PyExc + Bytes) * World;
  write_file : string -> Bytes -> World -> (PyExc + unit) * World;
  load_data : list string -> World -> (PyExc + Documents) * World;
  from_documents : Documents -> SentenceSplitter -> World -> (PyExc + Index) * World;
  os_remove : string -> World -> (PyExc + unit) * World;
  (* index.as_query_engine(streaming, similarity_top_k, response_mode) *)
  as_query_engine : Index -> bool -> nat -> string -> World -> (PyExc + QueryEngine) * World;
  engine_query : QueryEngine -> string -> World -> (PyExc + Response) * World;
  (* str(response): a function of the response object alone, which may raise *)
  str_response : Response -> PyExc + string
}.

(** ** A concrete environment, used to run the model *)

(** The world is the content of the current directory (only "temp.pdf"
    matters) and the number of index builds that will still fail. *)
Record TestWorld := { temp_file : option string; failing_builds : nat }.

Definition test_httpx_get (pdf_url : string) (w : TestWorld)
  : (PyExc + string) * TestWorld :=
  if String.eqb pdf_url "urlB"
  then (inl (MkExc "ConnectError" "All connection attempts failed"), w)
  else (inr ("%PDF " ++ pdf_url), w).

Definition test_write_file (path : string) (content : string) (w : TestWorld)
  : (PyExc + unit) * TestWorld :=
  (inr tt, {| temp_file := Some content; failing_builds := failing_builds w |}).

Definition test_load_data (paths : list string) (w : TestWorld)
  : (PyExc + string) * TestWorld :=
  match temp_file w with
  | Some content => (inr content, w)
  | None => (inl (MkExc "ValueError" "File temp.pdf does not exist."), w)
  end.

Definition test_from_documents (documents : string) (parser : SentenceSplitter)
    (w : TestWorld) : (PyExc + string) * TestWorld :=
  match failing_builds w with
  | O => (inr ("index of " ++ documents), w)
  | S n => (inl (MkExc "RateLimitError" "embedding quota exceeded"),
            {| temp_file := temp_file w; failing_builds := n |})
  end.

Definition test_os_remove (path : string) (w : TestWorld)
  : (PyExc + unit) * TestWorld :=
  match temp_file w with
  | Some _ => (inr tt, {| temp_file := None; failing_builds := failing_builds w |})
  | None => (inl (MkExc "FileNotFoundError" "No such file: temp.pdf"), w)
  end.

Definition test_as_query_engine (index : string) (streaming : bool)
    (similarity_top_k : nat) (response_mode : string) (w : TestWorld)
  : (PyExc + string) * TestWorld :=
  (inr index, w).

Definition test_engine_query (query_engine : string) (query : string)
    (w : TestWorld) : (PyExc + string) * TestWorld :=
  if String.eqb query ""
  then (inl (MkExc "ValueError" "empty query"), w)
  else (inr ("answer to " ++ query ++ " from " ++ query_engine), w).

Definition test_env : Collaborators := {|
  World := TestWorld;
  Bytes := string;
  Documents := string;
  Index := string;
  QueryEngine := string;
  Response := string;
  httpx_get := test_httpx_get;
  write_file := test_write_file;
  load_data := test_load_data;
  from_documents := test_from_documents;
  os_remove := test_os_remove;
  as_query_engine := test_as_query_engine;
  engine_query := test_engine_query;
  str_response := fun response => inr response
|}.

Section Orchestrator.

Context {C : Collaborators}.

(** ** State *)

(** The two dictionaries [__init__] creates: [self.cache] and
    [self.index_cache]. *)
Record PDFProcessor := {
  cache : gmap string string;
  index_cache : gmap string Index
}.

(** [self.cache = {}; self.index_cache = {}] *)
Definition PDFProcessor_init : PDFProcessor :=
  {| cache := ∅; index_cache := ∅ |}.

Record Machine := {
  self : PDFProcessor;
  world : World;
  trace : list Event
}.

(** ** The monad of Python computations *)

Definition Py (A : Type) : Type := Machine -> (PyExc + A) * Machine.

Definition ret {A} (a : A) : Py A := fun m => (inr a, m).

Definition raise {A} (e : PyExc) : Py A := fun m => (inl e, m).

Definition bind {A B} (c : Py A) (k : A -> Py B) : Py B :=
  fun m =>
    match c m with
    | (inr a, m') => k a m'
    | (inl e, m') => (inl e, m')
    end.

(** [try: body  except Exception as e: handler e] *)
Definition try_except {A} (body : Py A) (handler : PyExc -> Py A) : Py A :=
  fun m =>
    match body m with
    | (inr a, m') => (inr a, m')
    | (inl e, m') => handler e m'
    end.

(** The outcome of a pure operation that may raise. *)
Definition lift {A} (r : PyExc + A) : Py A := fun m => (r, m).

Definition is_inr {A B} (r : A + B) : bool :=
  match r with inr _ => true | inl _ => false end.

(** A collaborator call: it runs on the world and is recorded in the trace. *)
Definition invoke {A} (c : Collab) (source : string)
    (f : World -> (PyExc + A) * World) : Py A :=
  fun m =>
    let '(r, w) := f (world m) in
    (r, {| self := self m; world := w;
           trace := trace m ++ [Call c source (is_inr r)] |}).

(** [self.cache] and [self.index_cache], read *)
Definition get_cache : Py (gmap string string) :=
  fun m => (inr (cache (self m)), m).

Definition get_index_cache : Py (gmap string Index) :=
  fun m => (inr (index_cache (self m)), m).

(** [self.cache[key] = value] *)
Definition cache_setitem (key value : string) : Py unit :=
  fun m =>
    (inr tt,
     {| self := {| cache := <[key := value]> (cache (self m));
                   index_cache := index_cache (self m) |};
        world := world m; trace := trace m |}).

(** [self.index_cache[key] = index] *)
Definition index_cache_setitem (key : string) (index : Index) : Py unit :=
  fun m =>
    (inr tt,
     {| self := {| cache := cache (self m);
                   index_cache := <[key := index]> (index_cache (self m)) |};
        world := world m; trace := trace m |}).

Notation "x <- c ;; k" := (bind c (fun x => k))
  (at level 100, c at next level, right associativity, only parsing).

(** ** The methods of [PDFProcessor] *)

Definition temp_pdf_path : string := "temp.pdf".

(** The body of the [try] block of [create_index_from_pdf], app.py
    lines 41-72.  The index is stored before the temporary file is
    removed. *)
Definition create_index_try (pdf_url : string) : Py Index :=
  pdf_content <- invoke HttpxGet pdf_url (httpx_get pdf_url) ;;
  _ <- invoke WriteFile pdf_url (write_file temp_pdf_path pdf_content) ;;
  documents <- invoke LoadData pdf_url (load_data [temp_pdf_path]) ;;
  let parser := {| chunk_size := 1024; chunk_overlap := 20 |} in
  index <- invoke FromDocuments pdf_url (from_documents documents parser) ;;
  _ <- index_cache_setitem pdf_url index ;;
  _ <- invoke OsRemove pdf_url (os_remove temp_pdf_path) ;;
  ret index.

(** [create_index_from_pdf(self, pdf_url)], app.py lines 35-75.
    The membership test and the early return are outside the [try]. *)
Definition create_index_from_pdf (pdf_url : string) : Py Index :=
  ic <- get_index_cache ;;
  match ic !! pdf_url with
  | Some index => ret index
  | None =>
      try_except
        (create_index_try pdf_url)
        (fun e => raise (Exception ("Error creating index: " ++ str e)))
  end.

(** [f"{pdf_url}:{query}"] *)
Definition cache_key (pdf_url query : string) : string :=
  pdf_url ++ ":" ++ query.

(** The body of the [try] block of [process_pdf], app.py lines 85-101.
    [str(response)] is evaluated twice when [use_cache] holds: once for
    the value stored and once for the value returned. *)
Definition process_pdf_try (pdf_url query : string) (use_cache : bool)
  : Py string :=
  index <- create_index_from_pdf pdf_url ;;
  query_engine <- invoke AsQueryEngine pdf_url
                    (as_query_engine index true 3 "tree_summarize") ;;
  response <- invoke EngineQuery pdf_url (engine_query query_engine query) ;;
  _ <- (if use_cache
        then (text <- lift (str_response response) ;;
              cache_setitem (cache_key pdf_url query) text)
        else ret tt) ;;
  lift (str_response response).

(** [process_pdf(self, pdf_url, query, use_cache=True)], app.py lines
    77-104. *)
Definition process_pdf (pdf_url query : string) (use_cache : bool) : Py string :=
  c <- get_cache ;;
  match use_cache, c !! cache_key pdf_url query with
  | true, Some answer => ret answer
  | _, _ =>
      try_except
        (process_pdf_try pdf_url query use_cache)
        (fun e => raise (Exception ("Error processing PDF: " ++ str e)))
  end.

(** One element of the list [batch_process_pdfs] returns: a dictionary
    with the keys "url", "result" and "status". *)
Record BatchItem := { url : string; result : string; status : string }.

(** The [for] loop of [batch_process_pdfs], app.py lines 110-123, with
    the list [results] it appends to. *)
Fixpoint batch_loop (pdf_urls : list string) (query : string)
    (results : list BatchItem) : Py (list BatchItem) :=
  match pdf_urls with
  | [] => ret results
  | url :: pdf_urls' =>
      results' <-
        try_except
          (result <- process_pdf url query true ;;
           ret (results ++ [ {| url := url; result := result;
                                status := "success" |} ])%list)
          (fun e =>
           ret (results ++ [ {| url := url; result := str e;
                                status := "error" |} ])%list) ;;
      batch_loop pdf_urls' query results'
  end.

(** [batch_process_pdfs(self, pdf_urls, query)], app.py lines 106-124. *)
Definition batch_process_pdfs (pdf_urls : list string) (query : string)
  : Py (list BatchItem) :=
  batch_loop pdf_urls query [].

(** ** Reading the trace *)

(** The number of calls of collaborator [c] recorded in [tr]. *)
Definition calls (c : Collab) (tr : list Event) : nat :=
  length (filter (fun ev => ev_collab ev = c) tr).

(** The number of calls of [c] made on behalf of [source]. *)
Definition calls_for (c : Collab) (source : string) (tr : list Event) : nat :=
  length (filter (fun ev => ev_collab ev = c /\ ev_source ev = source) tr).

(** The number of calls of [c] for [source] that raised. *)
Definition failed_calls_for (c : Collab) (source : string) (tr : list Event) : nat :=
  length (filter (fun ev => ev_collab ev = c /\ ev_source ev = source
                            /\ ev_ok ev = false) tr).

(** A fresh processor in world [w], with an empty trace. *)
Definition fresh (w : World) : Machine :=
  {| self := PDFProcessor_init; world := w; trace := [] |}.

(** The machine [m] with its answer cache replaced by [c]. *)
Definition with_cache (c : gmap string string) (m : Machine) : Machine :=
  {| self := {| cache := c; index_cache := index_cache (self m) |};
     world := world m; trace := trace m |}.

(** The item [batch_process_pdfs] appends for a source, given how
    [process_pdf] ended for it. *)
Definition item_of (source : string) (r : PyExc + string) : BatchItem :=
  match r with
  | inr answer => {| url := source; result := answer; status := "success" |}
  | inl e => {| url := source; result := str e; status := "error" |}
  end.

End Orchestrator.

Arguments PDFProcessor {C}.
Arguments Machine {C}.

(** ** Concrete machines *)

(** A world where every index build succeeds, and one where the first
    build raises and the later ones succeed. *)
Definition tw0 : TestWorld := {| temp_file := None; failing_builds := 0 |}.

Definition tw_flaky : TestWorld := {| temp_file := None; failing_builds := 1 |}.

(** A fresh processor in each of them. *)
Definition m0 : @Machine test_env := @fresh test_env tw0.

Definition m_flaky : @Machine test_env := @fresh test_env tw_flaky.

(** ** The Streamlit script (app.py lines 126-257) *)

(** *** Python string operations the script uses

    For these a string is read as a sequence of characters below U+0100,
    one per [ascii]. *)

(** [c.isspace()] on such a character: tab to carriage return, the four
    separators U+001C to U+001F, the space, U+0085 and U+00A0. *)
Definition py_isspace (c : Ascii.ascii) : bool :=
  let n := Ascii.nat_of_ascii c in
  ((9 <=? n)%nat && (n <=? 13)%nat) || ((28 <=? n)%nat && (n <=? 32)%nat)
  || (n =? 133)%nat || (n =? 160)%nat.

(** [s.lstrip()] *)
Fixpoint lstrip (s : string) : string :=
  match s with
  | String c s' => if py_isspace c then lstrip s' else s
  | EmptyString => EmptyString
  end.

(** [s.rstrip()] *)
Fixpoint rstrip (s : string) : string :=
  match s with
  | String c s' =>
      match rstrip s' with
      | EmptyString => if py_isspace c then EmptyString else String c EmptyString
      | r => String c r
      end
  | EmptyString => EmptyString
  end.

(** [s.strip()] *)
Definition strip (s : string) : string := rstrip (lstrip s).

(** The truth value of a string in a condition: it is not empty. *)
Definition truthy (s : string) : bool :=
  match s with EmptyString => false | String _ _ => true end.

Definition newline : Ascii.ascii := Ascii.ascii_of_nat 10.

(** [s.split(sep)] for a separator of one character sitting in [sep]:
    the parts between the separators, at least one. *)
Fixpoint split (sep : Ascii.ascii) (s : string) : list string :=
  match s with
  | EmptyString => [EmptyString]
  | String c s' =>
      if Ascii.eqb c sep then EmptyString :: split sep s'
      else match split sep s' with
           | part :: parts => String c part :: parts
           | [] => [String c EmptyString]
           end
  end.

(** [s[:n]] *)
Fixpoint prefix (n : nat) (s : string) : string :=
  match n, s with
  | S n', String c s' => String c (prefix n' s')
  | _, _ => EmptyString
  end.

(** [[url.strip() for url in pdf_urls.split('\n') if url.strip()]],
    app.py line 195. *)
Definition urls_list (pdf_urls : string) : list string :=
  List.map strip
    (List.filter (fun url => truthy (strip url)) (split newline pdf_urls)).

(** A string of whitespace only. *)
Fixpoint blank (s : string) : bool :=
  match s with
  | String c s' => py_isspace c && blank s'
  | EmptyString => true
  end.

(** [c in s] for a character [c] *)
Fixpoint has_char (c : Ascii.ascii) (s : string) : bool :=
  match s with
  | String d s' => Ascii.eqb d c || has_char c s'
  | EmptyString => false
  end.

(** The first character, if any, is not whitespace. *)
Definition head_ok (s : string) : Prop :=
  match s with
  | String c _ => py_isspace c = false
  | EmptyString => True
  end.

(** ["\n".join(lines)] *)
Fixpoint join_lines (lines : list string) : string :=
  match lines with
  | [] => EmptyString
  | [line] => line
  | line :: lines' => line ++ String newline (join_lines lines')
  end.

(** A URL as [urls_list] delivers it: not empty, no whitespace at
    either end, on one line. *)
Definition clean_url (u : string) : Prop :=
  u <> EmptyString /\ strip u = u /\ has_char newline u = false.

(** *** What the script shows *)

(** The calls of the display functions of Streamlit in the main area,
    in the order the script makes them. *)
Inductive Display :=
  | Markdown (body : string)        (* st.markdown(body) *)
  | Warning (body : string)         (* st.warning(body) *)
  | Error (body : string)           (* st.error(body) *)
  | Success (body : string)         (* st.success(body) *)
  | Info (body : string)            (* st.info(body) *)
  | Spinner (text : string)         (* with st.spinner(text): *)
  | ProgressStart                   (* progress_bar = st.progress(0) *)
  | StatusStart                     (* status_text = st.empty() *)
  | Progress (done total : nat)     (* progress_bar.progress(done / total) *)
  | StatusText (body : string)      (* status_text.text(body) *)
  | Expander (label : string) (children : list Display)
                                    (* with st.expander(label, expanded=True): *)
  | ProgressEmpty                   (* progress_bar.empty() *)
  | StatusEmpty.                    (* status_text.empty() *)

(** The three pictographs of the script's texts. *)
Class Icons := { icon_page : string; icon_info : string; icon_wave : string }.

Definition test_icons : Icons :=
  {| icon_page := "[page]"; icon_info := "[i]"; icon_wave := "[wave]" |}.

(** The values the widgets of the sidebar return. *)
Record Inputs := {
  is_batch : string;          (* st.radio("Processing Mode", ...) *)
  query_input : string;       (* st.text_area("Analysis Query", ...) *)
  pdf_urls_input : string;    (* st.text_area("PDF URLs (one per line)", ...) *)
  pdf_url_input : string;     (* st.text_input("PDF URL", ...) *)
  use_cache_input : bool;     (* st.checkbox("Use cache", ...) *)
  process_button : bool       (* st.button("Analyze PDF(s)") *)
}.

(** The variables of the script after the sidebar, app.py lines
    134-174: [pdf_url] and [pdf_urls] start as [None] and [use_cache] as
    [True]; each mode sets its own. *)
Record Vars := {
  v_is_batch : string;
  v_query : string;
  v_pdf_url : option string;
  v_pdf_urls : option string;
  v_use_cache : bool;
  v_process_button : bool
}.

Definition sidebar (inp : Inputs) : Vars :=
  if String.eqb (is_batch inp) "Batch Processing"
  then {| v_is_batch := is_batch inp; v_query := query_input inp;
          v_pdf_url := None; v_pdf_urls := Some (pdf_urls_input inp);
          v_use_cache := true; v_process_button := process_button inp |}
  else {| v_is_batch := is_batch inp; v_query := query_input inp;
          v_pdf_url := Some (pdf_url_input inp); v_pdf_urls := None;
          v_use_cache := use_cache_input inp;
          v_process_button := process_button inp |}.

(** [x and x.strip()] for [x] a string or [None] *)
Definition filled (x : option string) : bool :=
  match x with
  | Some text => truthy text && truthy (strip text)
  | None => false
  end.

Definition welcome_text : string :=
  "
    To get started:
    1. Choose your processing mode in the sidebar
    2. Enter the PDF URL(s)
    3. Type your analysis query
    4. Click 'Analyze PDF(s)'
    
    The analysis results will appear here.
    ".

Section Script.

Context {C : Collaborators} {I : Icons}.

Notation "x <- c ;; k" := (bind c (fun x => k))
  (at level 100, c at next level, right associativity, only parsing).

(** The calls [create_index_from_pdf] makes for [s] when every step
    returns, in the order of the source. *)
Definition build_calls (s : string) : list Event :=
  [ Call HttpxGet s true; Call WriteFile s true; Call LoadData s true;
    Call FromDocuments s true; Call OsRemove s true ].

(** The two calls of [process_pdf] after it has the index. *)
Definition query_calls (s : string) : list Event :=
  [ Call AsQueryEngine s true; Call EngineQuery s true ].

(** The body of the loop over [enumerate(results)], app.py lines
    205-214, for the result [item] at position [idx] of [total]. *)
Definition show_result (total idx : nat) (item : BatchItem) : list Display :=
  [ Progress (idx + 1) total;
    StatusText ("Processing PDF " ++ pretty (idx + 1) ++ " of " ++ pretty total);
    Expander (icon_page ++ " " ++ prefix 50 (url item) ++ "...")
      (if String.eqb (status item) "success"
       then [Markdown "#### Analysis"; Markdown (result item)]
       else [Error ("Error: " ++ result item)]) ].

(** The branch of batch processing, app.py lines 193-220. *)
Definition batch_mode (pdf_urls : option string) (query : string)
  : Py (list Display) :=
  match pdf_urls with
  | Some text =>
      if filled pdf_urls then
        results <- batch_process_pdfs (urls_list text) query ;;
        ret ([Markdown "## Analysis Results"; ProgressStart; StatusStart;
              Spinner "Processing PDFs..."]
             ++ concat (imap (show_result (length results)) results)
             ++ [ProgressEmpty; StatusEmpty;
                 Success ("Completed analysis of " ++ pretty (length results)
                          ++ " PDFs")])%list
      else ret [Warning "Please enter at least one PDF URL in the sidebar"]
  | None => ret [Warning "Please enter at least one PDF URL in the sidebar"]
  end.

(** The branch of single processing, app.py lines 222-245.  The text of
    [pdf_url] goes to [process_pdf] as it was entered. *)
Definition single_mode (pdf_url : option string) (query : string)
    (use_cache : bool) : Py (list Display) :=
  match pdf_url with
  | Some text =>
      if filled pdf_url then
        try_except
          (result <- process_pdf text query use_cache ;;
           ret ([Markdown "## Analysis Results"; Spinner "Analyzing PDF...";
                 Success "Analysis Complete!";
                 Markdown "### Document Analysis"; Markdown result]
                ++ (if use_cache
                    then [Info (icon_info ++ " This result is cached for "
                                ++ "faster future queries")]
                    else []))%list)
          (fun e =>
           ret [Markdown "## Analysis Results"; Spinner "Analyzing PDF...";
                Error ("Error processing PDF: " ++ str e)])
      else ret [Warning "Please enter a PDF URL in the sidebar"]
  | None => ret [Warning "Please enter a PDF URL in the sidebar"]
  end.

(** The main area, app.py lines 191-257. *)
Definition main_content (v : Vars) : Py (list Display) :=
  if v_process_button v then
    if String.eqb (v_is_batch v) "Batch Processing"
    then batch_mode (v_pdf_urls v) (v_query v)
    else single_mode (v_pdf_url v) (v_query v) (v_use_cache v)
  else ret [Markdown ("### Welcome! " ++ icon_wave); Markdown welcome_text].

(** [st.session_state.processor] after lines 127-128: the processor of
    the session, created with empty caches when there is none. *)
Definition session_processor (session_state : option PDFProcessor)
  : PDFProcessor :=
  match session_state with
  | Some processor => processor
  | None => PDFProcessor_init
  end.

(** One run of the script: the widgets' values, the session state and
    the world in; what the main area shows and the machine out. *)
Definition script (inp : Inputs) (session_state : option PDFProcessor)
    (w : World) (tr : list Event) : (PyExc + list Display) * Machine :=
  main_content (sidebar inp)
    {| self := session_processor session_state; world := w; trace := tr |}.

(** The arguments of the calls of [progress_bar.progress] in a list of
    displays, and the labels of its expanders. *)
Definition progress_values (ds : list Display) : list (nat * nat) :=
  omap (fun d => match d with Progress done total => Some (done, total)
                         | _ => None end) ds.

Definition expander_labels (ds : list Display) : list string :=
  omap (fun d => match d with Expander label _ => Some label | _ => None end) ds.

End Script.

(** An environment like [test_env] where the current directory is
    read-only for removals: [os.remove] always raises. *)
Definition test_env_keep : Collaborators := {|
  World := TestWorld;
  Bytes := string;
  Documents := string;
  Index := string;
  QueryEngine := string;
  Response := string;
  httpx_get := test_httpx_get;
  write_file := test_write_file;
  load_data := test_load_data;
  from_documents := test_from_documents;
  os_remove := fun path w => (inl (MkExc "PermissionError" "Permission denied: temp.pdf"), w);
  as_query_engine := test_as_query_engine;
  engine_query := test_engine_query;
  str_response := fun response => inr response
|}.

Section Properties.

Context {C : Collaborators}.

(** ** Auxiliary facts *)

Lemma calls_app c (tr1 tr2 : list Event) :
  calls c (tr1 ++ tr2) = calls c tr1 + calls c tr2.
Proof. unfold calls. by rewrite filter_app, length_app. Qed.

Lemma calls_for_app c s (tr1 tr2 : list Event) :
  calls_for c s (tr1 ++ tr2) = calls_for c s tr1 + calls_for c s tr2.
Proof. unfold calls_for. by rewrite filter_app, length_app. Qed.

Lemma failed_calls_for_app c s (tr1 tr2 : list Event) :
  failed_calls_for c s (tr1 ++ tr2)
  = failed_calls_for c s tr1 + failed_calls_for c s tr2.
Proof. unfold failed_calls_for. by rewrite filter_app, length_app. Qed.

Lemma calls_one c c' s' ok :
  calls c [Call c' s' ok] = if decide (c' = c) then 1 else 0.
Proof. unfold calls. rewrite filter_cons, filter_nil. simpl. by case_decide. Qed.

Lemma calls_for_one c s c' s' ok :
  calls_for c s [Call c' s' ok] = if decide (c' = c /\ s' = s) then 1 else 0.
Proof.
  unfold calls_for. rewrite filter_cons, filter_nil. simpl.
  by repeat case_decide.
Qed.

Lemma failed_calls_for_one c s c' s' ok :
  failed_calls_for c s [Call c' s' ok]
  = if decide (c' = c /\ s' = s /\ ok = false) then 1 else 0.
Proof.
  unfold failed_calls_for. rewrite filter_cons, filter_nil. simpl.
  by repeat case_decide.
Qed.

(** Unfolds the methods down to the collaborator calls and splits on the
    outcome of each call. *)
Ltac py_unfold :=
  unfold process_pdf, process_pdf_try, create_index_from_pdf,
    create_index_try, bind, try_except, invoke, lift,
    ret, raise, get_cache, get_index_cache, cache_setitem,
    index_cache_setitem in *.

Ltac same_call :=
  repeat match goal with
         | H1 : ?x = _, H2 : ?x = _ |- _ => rewrite H1 in H2; simplify_eq/=
         end.

Ltac py_cases := repeat (case_match; simplify_eq/=; same_call).

Ltac py_run := py_unfold; py_cases.

(** Evaluates the counters on a trace extended by known events. *)
Ltac count_calls :=
  rewrite ?calls_app, ?calls_for_app, ?failed_calls_for_app,
    ?calls_one, ?calls_for_one, ?failed_calls_for_one in *;
  simpl in *; repeat case_decide; try lia; try naive_solver lia.

(** A cached index is returned as it is; nothing else happens. *)
Lemma create_index_cached (pdf_url : string) (index : Index) (m : Machine) :
  index_cache (self m) !! pdf_url = Some index ->
  create_index_from_pdf pdf_url m = (inr index, m).
Proof. intros H. py_unfold. by rewrite H. Qed.

(** [create_index_from_pdf] never touches the answer cache. *)
Lemma create_index_cache_frame (pdf_url : string) (m m' : Machine) r :
  create_index_from_pdf pdf_url m = (r, m') ->
  cache (self m') = cache (self m).
Proof. intros H. py_run; done. Qed.

(** [create_index_from_pdf] never calls the query side. *)
Lemma create_index_no_query (pdf_url : string) (m m' : Machine) r :
  create_index_from_pdf pdf_url m = (r, m') ->
  calls EngineQuery (trace m') = calls EngineQuery (trace m).
Proof. intros H. py_run; count_calls. Qed.

(** A cache hit returns the stored answer and changes nothing. *)
Lemma process_pdf_hit (pdf_url query answer : string) (m : Machine) :
  cache (self m) !! cache_key pdf_url query = Some answer ->
  process_pdf pdf_url query true m = (inr answer, m).
Proof. intros H. unfold process_pdf, bind, get_cache, ret. by rewrite H. Qed.

(** Without a usable cache entry, [process_pdf] is its [try] block. *)
Lemma process_pdf_miss (pdf_url query : string) (use_cache : bool) (m : Machine) :
  use_cache = false \/ cache (self m) !! cache_key pdf_url query = None ->
  process_pdf pdf_url query use_cache m
  = try_except (process_pdf_try pdf_url query use_cache)
      (fun e => raise (Exception ("Error processing PDF: " ++ str e))) m.
Proof.
  intros H. unfold process_pdf, bind, get_cache.
  destruct H as [-> | ->]; [done|]. by destruct use_cache.
Qed.

(** How [process_pdf] can end: on a cache hit, or through its [try]
    block, whose exception the handler wraps. *)
Lemma process_pdf_inv (pdf_url query : string) (use_cache : bool)
    (m m' : Machine) (r : PyExc + string) :
  process_pdf pdf_url query use_cache m = (r, m') ->
  (use_cache = true /\ m' = m /\
   exists answer, cache (self m) !! cache_key pdf_url query = Some answer /\
                  r = inr answer) \/
  ((use_cache = false \/ cache (self m) !! cache_key pdf_url query = None) /\
   ((exists answer, r = inr answer /\
       process_pdf_try pdf_url query use_cache m = (inr answer, m')) \/
    (exists cause, r = inl (Exception ("Error processing PDF: " ++ str cause)) /\
       process_pdf_try pdf_url query use_cache m = (inl cause, m')))).
Proof.
  intros H.
  destruct use_cache;
    [destruct (cache (self m) !! cache_key pdf_url query) as [old|] eqn:Hc|].
  - left. rewrite (process_pdf_hit _ _ _ _ Hc) in H. simplify_eq. eauto.
  - right. split; [by right|]. rewrite process_pdf_miss in H by by right.
    unfold try_except, raise in H.
    destruct (process_pdf_try pdf_url query true m) as [[e|a] m1];
      simplify_eq; eauto.
  - right. split; [by left|]. rewrite process_pdf_miss in H by by left.
    unfold try_except, raise in H.
    destruct (process_pdf_try pdf_url query false m) as [[e|a] m1];
      simplify_eq; eauto.
Qed.

(** What the [try] block of [process_pdf] does to the answer cache. *)
Lemma process_pdf_try_cache (pdf_url query : string) (use_cache : bool)
    (m m' : Machine) (r : PyExc + string) :
  process_pdf_try pdf_url query use_cache m = (r, m') ->
  match r with
  | inr answer =>
      cache (self m')
      = if use_cache then <[cache_key pdf_url query := answer]> (cache (self m))
        else cache (self m)
  | inl _ => cache (self m') = cache (self m)
  end.
Proof.
  intros H. unfold process_pdf_try, bind in H.
  destruct (create_index_from_pdf pdf_url m) as [r1 m1] eqn:Hi.
  apply create_index_cache_frame in Hi.
  unfold invoke, lift, ret, raise, cache_setitem in H.
  py_cases; by rewrite <- ?Hi.
Qed.

(** What a successful [process_pdf] with caching leaves in the cache. *)
Lemma process_pdf_cached_after (pdf_url query answer : string) (m m' : Machine) :
  process_pdf pdf_url query true m = (inr answer, m') ->
  cache (self m') !! cache_key pdf_url query = Some answer.
Proof.
  intros H. apply process_pdf_inv in H.
  destruct H as [(_ & -> & a & Hc & ?) | (_ & [(a & ? & Ht) | (c & ? & _)])];
    simplify_eq; [done|].
  apply process_pdf_try_cache in Ht. rewrite Ht. by rewrite lookup_insert_eq.
Qed.

(** The loop with an accumulator is the loop from the empty list, put
    after the accumulator. *)
Lemma batch_loop_acc (pdf_urls : list string) (query : string)
    (results : list BatchItem) (m : Machine) :
  batch_loop pdf_urls query results m
  = (match batch_loop pdf_urls query [] m with
     | (inr items, m') => (inr (results ++ items)%list, m')
     | (inl e, m') => (inl e, m')
     end).
Proof.
  revert results m.
  induction pdf_urls as [|u us IH]; intros results m; simpl.
  - unfold ret. by rewrite app_nil_r.
  - unfold bind at 1 3. unfold try_except, bind.
    destruct (process_pdf u query true m) as [[e|a] m1]; unfold ret; simpl.
    + rewrite IH. rewrite (IH [_]).
      destruct (batch_loop us query [] m1) as [[e'|items] m2]; [done|].
      by rewrite <- app_assoc.
    + rewrite IH. rewrite (IH [_]).
      destruct (batch_loop us query [] m1) as [[e'|items] m2]; [done|].
      by rewrite <- app_assoc.
Qed.

(** One turn of the loop. *)
Lemma batch_cons (source : string) (pdf_urls : list string) (query : string)
    (m : Machine) :
  batch_process_pdfs (source :: pdf_urls) query m
  = (let '(r, m1) := process_pdf source query true m in
     match batch_process_pdfs pdf_urls query m1 with
     | (inr items, m') => (inr (item_of source r :: items), m')
     | (inl e, m') => (inl e, m')
     end).
Proof.
  unfold batch_process_pdfs. simpl. unfold bind at 1. unfold try_except, bind.
  destruct (process_pdf source query true m) as [[e|a] m1];
    unfold ret; simpl; by rewrite batch_loop_acc.
Qed.

(** The batch never raises. *)
Lemma batch_total (pdf_urls : list string) (query : string) (m : Machine) :
  exists items m', batch_process_pdfs pdf_urls query m = (inr items, m').
Proof.
  revert m. induction pdf_urls as [|u us IH]; intros m.
  - by exists [], m.
  - rewrite batch_cons.
    destruct (process_pdf u query true m) as [r m1].
    destruct (IH m1) as (items & m' & ->). eauto.
Qed.

(** The batch returns a list that carries the input sources in order. *)
Lemma batch_order_length_aux (pdf_urls : list string) (query : string)
    (m : Machine) :
  exists (items : list BatchItem) (m' : Machine),
    batch_process_pdfs pdf_urls query m = (inr items, m') /\
    url <$> items = pdf_urls.
Proof.
  revert m. induction pdf_urls as [|u us IH]; intros m.
  - by exists [], m.
  - rewrite batch_cons.
    destruct (process_pdf u query true m) as [r m1].
    destruct (IH m1) as (items & m' & -> & Hmap).
    exists (item_of u r :: items), m'. split; [done|].
    rewrite fmap_cons, Hmap. by destruct r.
Qed.

(** The batch over a concatenation is the batch over the first part
    followed by the batch over the second, run where the first ended. *)
Lemma batch_app (pre post : list string) (query : string) (m : Machine) :
  batch_process_pdfs (pre ++ post) query m
  = (match batch_process_pdfs pre query m with
     | (inr items1, m1) =>
         match batch_process_pdfs post query m1 with
         | (inr items2, m2) => (inr (items1 ++ items2)%list, m2)
         | (inl e, m2) => (inl e, m2)
         end
     | (inl e, m1) => (inl e, m1)
     end).
Proof.
  revert m. induction pre as [|u us IH]; intros m.
  - change (batch_process_pdfs [] query m) with (@inr PyExc _ (@nil BatchItem), m).
    simpl. by destruct (batch_process_pdfs post query m) as [[?|?] ?].
  - change ((u :: us) ++ post)%list with (u :: (us ++ post))%list.
    rewrite !batch_cons.
    destruct (process_pdf u query true m) as [r m1].
    rewrite IH.
    destruct (batch_process_pdfs us query m1) as [[?|items1] m2]; [done|].
    by destruct (batch_process_pdfs post query m2) as [[?|?] ?].
Qed.

(** A failure of [process_pdf] carries a message that starts with the
    prefix the handler puts, and is an instance of [Exception] itself. *)
Lemma process_pdf_raises (s q : string) (uc : bool) (m m' : Machine) (e : PyExc) :
  process_pdf s q uc m = (inl e, m') ->
  exists cause : PyExc, e = Exception ("Error processing PDF: " ++ str cause).
Proof.
  intros H. apply process_pdf_inv in H.
  destruct H as [(_ & _ & a & _ & ?) | (_ & [(a & ? & _) | (c & ? & _)])];
    simplify_eq; eauto.
Qed.

(** A failed [process_pdf] leaves the answer cache as it was. *)
Lemma process_pdf_failure_frame (s q : string) (uc : bool) (m m' : Machine)
    (e : PyExc) :
  process_pdf s q uc m = (inl e, m') ->
  cache (self m') = cache (self m).
Proof.
  intros H. apply process_pdf_inv in H.
  destruct H as [(_ & _ & a & _ & ?) | (_ & [(a & ? & _) | (c & ? & Ht)])];
    simplify_eq.
  by apply process_pdf_try_cache in Ht.
Qed.

(** [create_index_from_pdf] does not read the answer cache. *)
Lemma create_index_with_cache (pdf_url : string) (c : gmap string string)
    (m m' : Machine) r :
  create_index_from_pdf pdf_url m = (r, m') ->
  create_index_from_pdf pdf_url (with_cache c m) = (r, with_cache c m').
Proof. intros H. py_unfold. simpl in *. py_cases; done. Qed.

(** With [use_cache=False] the [try] block of [process_pdf] does not
    read the answer cache either. *)
Lemma process_pdf_try_with_cache (pdf_url query : string)
    (c : gmap string string) (m m' : Machine) r :
  process_pdf_try pdf_url query false m = (r, m') ->
  process_pdf_try pdf_url query false (with_cache c m) = (r, with_cache c m').
Proof.
  intros H. unfold process_pdf_try, bind in *.
  destruct (create_index_from_pdf pdf_url m) as [r1 m1] eqn:Hi.
  rewrite (create_index_with_cache _ c _ _ _ Hi). clear Hi.
  unfold invoke, lift, ret in *. simpl in *. py_cases; done.
Qed.

(** The Query Engine calls of the [try] block of [process_pdf]: one when
    it returns, at most one when it raises. *)
Lemma process_pdf_try_queries (pdf_url query : string) (use_cache : bool)
    (m m' : Machine) r :
  process_pdf_try pdf_url query use_cache m = (r, m') ->
  calls EngineQuery (trace m') <= calls EngineQuery (trace m) + 1 /\
  (is_inr r = true ->
   calls EngineQuery (trace m') = calls EngineQuery (trace m) + 1).
Proof.
  intros H. unfold process_pdf_try, bind in H.
  destruct (create_index_from_pdf pdf_url m) as [r1 m1] eqn:Hi.
  apply create_index_no_query in Hi. rewrite <- Hi.
  unfold invoke, lift, ret, cache_setitem in H.
  py_cases; count_calls.
Qed.

(** The index builds of one [process_pdf] for [s]: at most one call of
    the Index Builder; none when [s] has an index; and a build that did
    not raise leaves an index for [s] in the index cache. *)
Lemma process_pdf_builds (s q : string) (use_cache : bool) (m m' : Machine) r :
  process_pdf s q use_cache m = (r, m') ->
  calls_for FromDocuments s (trace m) <= calls_for FromDocuments s (trace m') /\
  calls_for FromDocuments s (trace m') <= calls_for FromDocuments s (trace m) + 1 /\
  failed_calls_for FromDocuments s (trace m)
  <= failed_calls_for FromDocuments s (trace m') /\
  (is_Some (index_cache (self m) !! s) ->
   calls_for FromDocuments s (trace m') = calls_for FromDocuments s (trace m)) /\
  (calls_for FromDocuments s (trace m') = calls_for FromDocuments s (trace m) + 1 ->
   failed_calls_for FromDocuments s (trace m')
   = failed_calls_for FromDocuments s (trace m) ->
   is_Some (index_cache (self m') !! s)) /\
  (is_inr r = true ->
   failed_calls_for FromDocuments s (trace m')
   = failed_calls_for FromDocuments s (trace m)).
Proof.
  intros H. py_run.
  all: repeat split; intros.
  all: try match goal with
           | Hn : ?x = None, Hs : is_Some ?x |- _ =>
               rewrite Hn in Hs; by destruct Hs
           end.
  all: try (rewrite lookup_insert_eq; by eexists).
  all: try done.
  all: count_calls.
Qed.

(** The index cache only grows: what it holds stays, with the same
    index. *)
Lemma create_index_grows (pdf_url : string) (m m' : Machine) r :
  create_index_from_pdf pdf_url m = (r, m') ->
  index_cache (self m) ⊆ index_cache (self m').
Proof. intros H. py_run; try done; by apply insert_subseteq. Qed.

Lemma process_pdf_grows (s q : string) (use_cache : bool) (m m' : Machine) r :
  process_pdf s q use_cache m = (r, m') ->
  index_cache (self m) ⊆ index_cache (self m').
Proof. intros H. py_run; try done; by apply insert_subseteq. Qed.

Lemma batch_grows (pdf_urls : list string) (query : string) (m m' : Machine) r :
  batch_process_pdfs pdf_urls query m = (r, m') ->
  index_cache (self m) ⊆ index_cache (self m').
Proof.
  revert m m' r. induction pdf_urls as [|u us IH]; intros m m' r H.
  - unfold batch_process_pdfs in H. simpl in H. unfold ret in H. by simplify_eq.
  - rewrite batch_cons in H.
    destruct (process_pdf u query true m) as [r1 m1] eqn:H1.
    apply process_pdf_grows in H1.
    destruct (batch_process_pdfs us query m1) as [r2 m2] eqn:H2.
    apply IH in H2.
    assert (m' = m2) as -> by (destruct r2; by simplify_eq).
    by etrans.
Qed.

(** How [create_index_from_pdf] raises: only on a miss, and then with
    the exception of its [try] block, wrapped by the handler. *)
Lemma create_index_raises (pdf_url : string) (m m' : Machine) (e : PyExc) :
  create_index_from_pdf pdf_url m = (inl e, m') <->
  index_cache (self m) !! pdf_url = None /\
  exists cause : PyExc,
    create_index_try pdf_url m = (inl cause, m') /\
    e = Exception ("Error creating index: " ++ str cause).
Proof.
  unfold create_index_from_pdf, bind, get_index_cache, try_except, raise, ret.
  destruct (index_cache (self m) !! pdf_url) as [index|].
  - split; [done|]. by intros [? _].
  - destruct (create_index_try pdf_url m) as [[cause|index] m1]; split.
    + intros ?; simplify_eq. eauto.
    + intros (_ & cause' & ? & ->). by simplify_eq.
    + done.
    + intros (_ & cause' & ? & _). done.
Qed.

(** With an index for the source in the index cache, [process_pdf]
    without caching calls none of the collaborators that fetch and
    build, and leaves the index cache as it is. *)
Lemma process_pdf_reuses_index (s q : string) (index : Index)
    (m m' : Machine) r :
  index_cache (self m) !! s = Some index ->
  process_pdf s q false m = (r, m') ->
  index_cache (self m') = index_cache (self m) /\
  forall c : Collab,
    c <> AsQueryEngine -> c <> EngineQuery ->
    calls c (trace m') = calls c (trace m).
Proof.
  intros Hi H. py_run.
  all: split; [done|]; intros c ? ?; count_calls.
Qed.

(** Without an index for the source, a build that [process_pdf] without
    caching makes and that does not raise is stored under the source. *)
Lemma process_pdf_stores_index (s q : string) (m m' : Machine) r :
  index_cache (self m) !! s = None ->
  process_pdf s q false m = (r, m') ->
  (is_inr r = true ->
   calls_for FromDocuments s (trace m')
   = calls_for FromDocuments s (trace m) + 1 /\
   failed_calls_for FromDocuments s (trace m')
   = failed_calls_for FromDocuments s (trace m)) /\
  (calls_for FromDocuments s (trace m')
   = calls_for FromDocuments s (trace m) + 1 ->
   failed_calls_for FromDocuments s (trace m')
   = failed_calls_for FromDocuments s (trace m) ->
   exists (index : Index) (documents : Documents) (w w' : World),
     from_documents documents {| chunk_size := 1024; chunk_overlap := 20 |} w
     = (inr index, w') /\
     index_cache (self m') = <[s := index]> (index_cache (self m))).
Proof.
  intros Hi H. py_run.
  all: split; [intros; try done; count_calls|].
  all: intros Hc Hf; try (by eauto 10).
  all: exfalso; revert Hc Hf; count_calls.
Qed.

(** The Query Engine calls of the [try] block of [process_pdf], by the
    stage it reaches: none when index construction raises, none when
    [as_query_engine] raises, one once the engine is there. *)
Lemma process_pdf_try_stages (pdf_url query : string) (use_cache : bool)
    (m m' : Machine) (r : PyExc + string) :
  process_pdf_try pdf_url query use_cache m = (r, m') ->
  (forall (e : PyExc) (m1 : Machine),
      create_index_from_pdf pdf_url m = (inl e, m1) ->
      r = inl e /\ m' = m1 /\
      calls EngineQuery (trace m') = calls EngineQuery (trace m)) /\
  (forall (index : Index) (m1 : Machine) (e : PyExc) (w : World),
      create_index_from_pdf pdf_url m = (inr index, m1) ->
      as_query_engine index true 3 "tree_summarize" (world m1) = (inl e, w) ->
      r = inl e /\
      calls EngineQuery (trace m') = calls EngineQuery (trace m)) /\
  (forall (index : Index) (m1 : Machine) (query_engine : QueryEngine)
          (w : World),
      create_index_from_pdf pdf_url m = (inr index, m1) ->
      as_query_engine index true 3 "tree_summarize" (world m1)
      = (inr query_engine, w) ->
      calls EngineQuery (trace m') = calls EngineQuery (trace m) + 1).
Proof.
  intros H. unfold process_pdf_try, bind in H.
  destruct (create_index_from_pdf pdf_url m) as [r1 m1] eqn:Hi.
  apply create_index_no_query in Hi. rewrite <- Hi.
  unfold invoke, lift, ret, cache_setitem in H.
  split; [|split].
  - intros e m2 ?. simplify_eq. done.
  - intros index m2 e w ? Hq. simplify_eq. rewrite Hq in H. simpl in H.
    simplify_eq. simpl. split; [done|]. count_calls.
  - intros index m2 qe w ? Hq. simplify_eq. rewrite Hq in H. simpl in H.
    py_cases; count_calls.
Qed.

(** A build that raises inside [process_pdf] makes the call raise and
    leaves both caches as they were: nothing is stored for the source. *)
Lemma process_pdf_failed_build (s q : string) (use_cache : bool)
    (m m' : Machine) (r : PyExc + string) :
  process_pdf s q use_cache m = (r, m') ->
  failed_calls_for FromDocuments s (trace m')
  <> failed_calls_for FromDocuments s (trace m) ->
  is_inr r = false /\
  index_cache (self m) !! s = None /\
  index_cache (self m') = index_cache (self m) /\
  cache (self m') = cache (self m).
Proof.
  intros H Hf. py_run.
  all: try solve [exfalso; apply Hf; count_calls].
  all: done.
Qed.

(** Without an index for the source and without a usable answer,
    [process_pdf] starts over: it fetches, and it calls the Index
    Builder exactly when fetch, write and load all return. *)
Lemma process_pdf_starts_over (s q : string) (use_cache : bool)
    (m m' : Machine) (r : PyExc + string) :
  index_cache (self m) !! s = None ->
  use_cache = false \/ cache (self m) !! cache_key s q = None ->
  process_pdf s q use_cache m = (r, m') ->
  calls_for HttpxGet s (trace m') = calls_for HttpxGet s (trace m) + 1 /\
  (calls_for FromDocuments s (trace m')
   = calls_for FromDocuments s (trace m) + 1 <->
   failed_calls_for HttpxGet s (trace m')
   = failed_calls_for HttpxGet s (trace m) /\
   failed_calls_for WriteFile s (trace m')
   = failed_calls_for WriteFile s (trace m) /\
   failed_calls_for LoadData s (trace m')
   = failed_calls_for LoadData s (trace m)).
Proof.
  intros Hi Hm H. py_run.
  all: try by (destruct Hm; simplify_eq).
  all: split; [count_calls|]; split; intros; count_calls.
Qed.

(** ** Properties of the specification *)

(** C1, idempotent caching: once [process_pdf s q] with [use_cache=True]
    has returned an answer, every later call with the same source and
    query on a machine whose answer cache is the one that call left
    returns the same string and leaves the whole machine as it found it
    (no collaborator is called, the world and the trace are untouched);
    the first call itself has called the Query Engine at most once. *)
Theorem idempotent_caching (s q answer : string) (m m1 : Machine) :
  process_pdf s q true m = (inr answer, m1) ->
  (forall m2 : Machine,
      cache (self m2) = cache (self m1) ->
      process_pdf s q true m2 = (inr answer, m2)) /\
  process_pdf s q true m1 = (inr answer, m1) /\
  calls EngineQuery (trace m1) <= calls EngineQuery (trace m) + 1.
Proof.
  intros H.
  pose proof (process_pdf_cached_after _ _ _ _ _ H) as Hc.
  split; [|split].
  - intros m2 Hm2. apply process_pdf_hit. by rewrite Hm2.
  - by apply process_pdf_hit.
  - clear Hc. py_run; count_calls.
Qed.

(** C2, batch order and length: [batch_process_pdfs] always returns a
    list, with one item per input source: as long as the input, and the
    item at position [k] carries the source at position [k]. *)
Theorem batch_order_length (pdf_urls : list string) (query : string)
    (m : Machine) :
  exists (items : list BatchItem) (m' : Machine),
    batch_process_pdfs pdf_urls query m = (inr items, m') /\
    length items = length pdf_urls /\
    url <$> items = pdf_urls /\
    (forall k : nat, url <$> (items !! k) = pdf_urls !! k).
Proof.
  destruct (batch_order_length_aux pdf_urls query m)
    as (items & m' & Hrun & Hmap).
  exists items, m'. split; [done|]. split; [|split; [done|]].
  - by rewrite <- Hmap, length_fmap.
  - intros k. by rewrite <- Hmap, list_lookup_fmap.
Qed.

(** C3, batch fault isolation.  Take any position of any batch: the
    sources before it, the source [s] at it, the sources after it.  The
    batch returns the items of the sources before, then the item of [s],
    then the items of the sources after, the latter computed by the
    same loop from the machine the call for [s] left.  When the call for
    [s] raised [e], its item is [{url: s, result: str(e), status:
    "error"}], [str(e)] is not empty (it starts with "Error processing
    PDF: "), and the answer cache is the one the call found; when it
    returned, its item is [{url: s, result: answer, status: "success"}].
    The batch itself never raises. *)
Theorem batch_fault_isolation (pre post : list string) (s query : string)
    (m : Machine) :
  exists (items1 items3 : list BatchItem) (item : BatchItem) (m1 m3 : Machine),
    batch_process_pdfs pre query m = (inr items1, m1) /\
    length items1 = length pre /\
    let '(r, m2) := process_pdf s query true m1 in
    batch_process_pdfs post query m2 = (inr items3, m3) /\
    batch_process_pdfs (pre ++ s :: post) query m
    = (inr (items1 ++ item :: items3)%list, m3) /\
    (items1 ++ item :: items3)%list !! length pre = Some item /\
    match r with
    | inl e =>
        item = {| url := s; result := str e; status := "error" |} /\
        str e <> "" /\
        (exists cause, str e = "Error processing PDF: " ++ str cause) /\
        cache (self m2) = cache (self m1)
    | inr answer =>
        item = {| url := s; result := answer; status := "success" |}
    end.
Proof.
  destruct (batch_order_length_aux pre query m) as (items1 & m1 & Hpre & Hmap).
  destruct (process_pdf s query true m1) as [r m2] eqn:Hs.
  destruct (batch_total post query m2) as (items3 & m3 & Hpost).
  assert (length items1 = length pre) as Hlen
      by by rewrite <- Hmap, length_fmap.
  exists items1, items3, (item_of s r), m1, m3.
  split; [done|]. split; [done|]. rewrite Hs.
  split; [done|]. split; [|split].
  - rewrite batch_app, Hpre, batch_cons, Hs, Hpost. done.
  - rewrite <- Hlen. by rewrite list_lookup_middle.
  - destruct r as [e|answer]; [|done].
    destruct (process_pdf_raises _ _ _ _ _ _ Hs) as (cause & ->).
    split; [done|]. split; [done|]. split; [by eauto|].
    by eapply process_pdf_failure_frame.
Qed.

(** C6, error atomicity: when [process_pdf] raises, whatever the source,
    the query and [use_cache], the answer cache is the one the call
    found. *)
Theorem error_atomicity (s q : string) (use_cache : bool) (m m' : Machine)
    (e : PyExc) :
  process_pdf s q use_cache m = (inl e, m') ->
  cache (self m') = cache (self m) /\
  forall key : string, cache (self m') !! key = cache (self m) !! key.
Proof.
  intros H. apply process_pdf_failure_frame in H. by rewrite H.
Qed.

(** C8, answer-cache key collision: the key [pdf_url + ":" + query] does
    not determine the pair; ("a:b", "c") and ("a", "b:c") have the same
    key.  Whenever two pairs have the same key, after a successful
    [process_pdf s1 q1] with caching, [process_pdf s2 q2] returns the
    answer of the first pair and leaves the machine as it found it: no
    collaborator is called and the index cache gets nothing for [s2]. *)
Theorem cache_key_collision :
  cache_key "a:b" "c" = cache_key "a" "b:c" /\
  ("a:b", "c") <> ("a", "b:c") /\
  forall (s1 q1 s2 q2 answer : string) (m m1 : Machine),
    cache_key s1 q1 = cache_key s2 q2 ->
    process_pdf s1 q1 true m = (inr answer, m1) ->
    process_pdf s2 q2 true m1 = (inr answer, m1).
Proof.
  split; [done|]. split; [done|].
  intros s1 q1 s2 q2 answer m m1 Hkey H.
  apply process_pdf_hit. rewrite <- Hkey.
  by eapply process_pdf_cached_after.
Qed.

(** C10, empty batch: on the empty list [batch_process_pdfs] returns the
    empty list and leaves the machine (both caches, the world, the
    trace) as it found it. *)
Theorem empty_batch (query : string) (m : Machine) :
  batch_process_pdfs [] query m = (inr [], m).
Proof. reflexivity. Qed.

(** C4, cache bypass, as the code has it: [process_pdf] with
    [use_cache=False] neither reads nor writes the answer cache.  Its
    outcome, the world, the trace and the index cache it leaves are the
    same whatever the answer cache holds, and the answer cache is left
    as found, whether the call returns or raises.  An answer it returns
    comes from exactly one call of the Query Engine made by this call;
    a call that raises has called the Query Engine at most once.
    When index construction raises, or when [as_query_engine] raises,
    the call raises the wrapped exception without any call of the Query
    Engine; once the engine is there, the Query Engine is called exactly
    once. *)
Theorem cache_bypass (s q : string) (m m' : Machine) (r : PyExc + string) :
  process_pdf s q false m = (r, m') ->
  cache (self m') = cache (self m) /\
  (forall c : gmap string string,
      process_pdf s q false (with_cache c m) = (r, with_cache c m')) /\
  (is_inr r = true ->
   calls EngineQuery (trace m') = calls EngineQuery (trace m) + 1) /\
  calls EngineQuery (trace m') <= calls EngineQuery (trace m) + 1 /\
  (forall (e : PyExc) (m1 : Machine),
      create_index_from_pdf s m = (inl e, m1) ->
      r = inl (Exception ("Error processing PDF: " ++ str e)) /\
      m' = m1 /\
      calls EngineQuery (trace m') = calls EngineQuery (trace m)) /\
  (forall (index : Index) (m1 : Machine) (e : PyExc) (w : World),
      create_index_from_pdf s m = (inr index, m1) ->
      as_query_engine index true 3 "tree_summarize" (world m1) = (inl e, w) ->
      r = inl (Exception ("Error processing PDF: " ++ str e)) /\
      calls EngineQuery (trace m') = calls EngineQuery (trace m)) /\
  (forall (index : Index) (m1 : Machine) (query_engine : QueryEngine)
          (w : World),
      create_index_from_pdf s m = (inr index, m1) ->
      as_query_engine index true 3 "tree_summarize" (world m1)
      = (inr query_engine, w) ->
      calls EngineQuery (trace m') = calls EngineQuery (trace m) + 1).
Proof.
  intros H. rewrite process_pdf_miss in H by by left.
  unfold try_except, raise in H.
  destruct (process_pdf_try s q false m) as [r0 m0] eqn:Ht.
  assert (m0 = m' /\ is_inr r0 = is_inr r) as [-> Hr]
      by (destruct r0; by simplify_eq).
  pose proof (process_pdf_try_cache _ _ _ _ _ _ Ht) as Hc.
  pose proof (process_pdf_try_queries _ _ _ _ _ _ Ht) as [Hle Hq].
  pose proof (process_pdf_try_stages _ _ _ _ _ _ Ht) as (Hidx & Heng & Hrun).
  split; [by destruct r0|]. split; [|split; [|split; [|split; [|split]]]].
  - intros c. rewrite process_pdf_miss by by left.
    unfold try_except, raise.
    rewrite (process_pdf_try_with_cache _ _ c _ _ _ Ht).
    destruct r0; by simplify_eq.
  - rewrite <- Hr. exact Hq.
  - exact Hle.
  - intros e m1 Hi. destruct (Hidx e m1 Hi) as (-> & -> & Hn).
    by simplify_eq.
  - intros index m1 e w Hi He. destruct (Heng index m1 e w Hi He) as (-> & Hn).
    by simplify_eq.
  - exact Hrun.
Qed.

(** C5, index reuse, as the code has it.
    (1) With an index for [s] in the index cache,
        [create_index_from_pdf s] returns that index and leaves the
        machine as it found it: nothing is fetched or built.
    (2) Two calls of [process_pdf] for [s] in a row, each with caching
        and with any queries, call the Index Builder for [s] at most
        once in all, provided no build for [s] raised during the first
        call; this is so in particular when the first call returned.
    (3) Each of the three methods leaves in the index cache every entry
        it found there, with the same index: entries are only added.
    (4) A build for [s] that raises makes the call raise and stores
        nothing: [s] had no index and has none afterwards, and both
        caches are as they were.
    (5) A call for a source without an index that does not use a cached
        answer starts over: it fetches the source, and it calls the
        Index Builder exactly when fetch, write and load all return. *)
Theorem index_reuse :
  (forall (s : string) (index : Index) (m : Machine),
      index_cache (self m) !! s = Some index ->
      create_index_from_pdf s m = (inr index, m)) /\
  (forall (s q1 q2 : string) (m m1 m2 : Machine) (r1 r2 : PyExc + string),
      process_pdf s q1 true m = (r1, m1) ->
      process_pdf s q2 true m1 = (r2, m2) ->
      failed_calls_for FromDocuments s (trace m1)
      = failed_calls_for FromDocuments s (trace m)
      \/ is_inr r1 = true ->
      calls_for FromDocuments s (trace m2)
      <= calls_for FromDocuments s (trace m) + 1) /\
  (forall (s : string) (m m' : Machine) r,
      create_index_from_pdf s m = (r, m') ->
      index_cache (self m) ⊆ index_cache (self m')) /\
  (forall (s q : string) (use_cache : bool) (m m' : Machine) r,
      process_pdf s q use_cache m = (r, m') ->
      index_cache (self m) ⊆ index_cache (self m')) /\
  (forall (pdf_urls : list string) (query : string) (m m' : Machine) r,
      batch_process_pdfs pdf_urls query m = (r, m') ->
      index_cache (self m) ⊆ index_cache (self m')) /\
  (forall (s q : string) (use_cache : bool) (m m' : Machine)
          (r : PyExc + string),
      process_pdf s q use_cache m = (r, m') ->
      failed_calls_for FromDocuments s (trace m')
      <> failed_calls_for FromDocuments s (trace m) ->
      is_inr r = false /\
      index_cache (self m) !! s = None /\
      index_cache (self m') = index_cache (self m) /\
      cache (self m') = cache (self m)) /\
  (forall (s q : string) (use_cache : bool) (m m' : Machine)
          (r : PyExc + string),
      index_cache (self m) !! s = None ->
      use_cache = false \/ cache (self m) !! cache_key s q = None ->
      process_pdf s q use_cache m = (r, m') ->
      calls_for HttpxGet s (trace m') = calls_for HttpxGet s (trace m) + 1 /\
      (calls_for FromDocuments s (trace m')
       = calls_for FromDocuments s (trace m) + 1 <->
       failed_calls_for HttpxGet s (trace m')
       = failed_calls_for HttpxGet s (trace m) /\
       failed_calls_for WriteFile s (trace m')
       = failed_calls_for WriteFile s (trace m) /\
       failed_calls_for LoadData s (trace m')
       = failed_calls_for LoadData s (trace m))).
Proof.
  split; [exact create_index_cached|]. split.
  - intros s q1 q2 m m1 m2 r1 r2 H1 H2 Hok.
    destruct (process_pdf_builds _ _ _ _ _ _ H1)
      as (Hge1 & Hle1 & _ & _ & Hstored1 & Hret1).
    destruct (process_pdf_builds _ _ _ _ _ _ H2)
      as (_ & Hle2 & _ & Hhit2 & _ & _).
    assert (failed_calls_for FromDocuments s (trace m1)
            = failed_calls_for FromDocuments s (trace m)) as Hf
        by (destruct Hok; auto).
    destruct (decide (calls_for FromDocuments s (trace m1)
                      = calls_for FromDocuments s (trace m) + 1)) as [Hb|Hb].
    + rewrite (Hhit2 (Hstored1 Hb Hf)). lia.
    + lia.
  - split; [exact create_index_grows|].
    split; [exact process_pdf_grows|]. split; [exact batch_grows|].
    split; [exact process_pdf_failed_build|exact process_pdf_starts_over].
Qed.

(** C7, error wrapping, as the code has it: both methods raise a plain
    [Exception] whose text is a fixed prefix followed by the text of the
    underlying exception.
    (1) [create_index_from_pdf] raises exactly when there is no cached
        index and its [try] block (fetch, write, load, build, remove)
        raises some [cause]; it then raises
        [Exception("Error creating index: " + str(cause))].
    (2) [process_pdf] raises exactly when no cached answer is used and
        its [try] block raises some [cause]; it then raises
        [Exception("Error processing PDF: " + str(cause))].
    (3) When index construction raises inside [process_pdf], the text
        carries both prefixes.
    (4) In all cases the class of the exception is [Exception]. *)
Theorem error_wrapping :
  (forall (s : string) (m m' : Machine) (e : PyExc),
      create_index_from_pdf s m = (inl e, m') <->
      index_cache (self m) !! s = None /\
      exists cause : PyExc,
        create_index_try s m = (inl cause, m') /\
        e = Exception ("Error creating index: " ++ str cause)) /\
  (forall (s q : string) (use_cache : bool) (m m' : Machine) (e : PyExc),
      process_pdf s q use_cache m = (inl e, m') <->
      (use_cache = false \/ cache (self m) !! cache_key s q = None) /\
      exists cause : PyExc,
        process_pdf_try s q use_cache m = (inl cause, m') /\
        e = Exception ("Error processing PDF: " ++ str cause)) /\
  (forall (s q : string) (use_cache : bool) (m m' : Machine) (e : PyExc),
      use_cache = false \/ cache (self m) !! cache_key s q = None ->
      create_index_from_pdf s m = (inl e, m') ->
      exists cause : PyExc,
        process_pdf s q use_cache m
        = (inl (Exception ("Error processing PDF: Error creating index: "
                           ++ str cause)), m')) /\
  (forall (s : string) (m m' : Machine) (e : PyExc),
      create_index_from_pdf s m = (inl e, m') -> exc_class e = "Exception") /\
  (forall (s q : string) (use_cache : bool) (m m' : Machine) (e : PyExc),
      process_pdf s q use_cache m = (inl e, m') -> exc_class e = "Exception").
Proof.
  split; [exact create_index_raises|]. split; [|split; [|split]].
  - intros s q uc m m' e. split.
    + intros H. apply process_pdf_inv in H.
      destruct H as [(_ & _ & a & _ & ?) | (Hm & [(a & ? & _) | (c & ? & Ht)])];
        simplify_eq. eauto.
    + intros (Hm & cause & Ht & ->). rewrite process_pdf_miss by done.
      unfold try_except, raise. by rewrite Ht.
  - intros s q uc m m' e Hm H.
    pose proof H as H'. apply create_index_raises in H' as (_ & cause & _ & ->).
    exists cause. rewrite process_pdf_miss by done.
    unfold try_except, raise, process_pdf_try, bind. by rewrite H.
  - intros s m m' e H. by apply create_index_raises in H as (_ & cause & _ & ->).
  - intros s q uc m m' e H. by apply process_pdf_raises in H as (cause & ->).
Qed.

(** C9, [use_cache] governs the answer cache only.  For [process_pdf]
    with [use_cache=False]:
    (1) with an index for [s] in the index cache, the call makes no call
        of the fetcher, the file operations or the Index Builder, and
        leaves the index cache as it is;
    (2) without one, a call that returns has built an index for [s],
        and whenever the call has made a build for [s] that did not
        raise, the index cache it leaves is the one it found with the
        built index added under [s], even if the call raises later on;
    (3) an index stored under [s] is what later calls of
        [create_index_from_pdf s] return, with nothing fetched or built. *)
Theorem use_cache_spares_index_cache :
  (forall (s q : string) (index : Index) (m m' : Machine) r,
      index_cache (self m) !! s = Some index ->
      process_pdf s q false m = (r, m') ->
      index_cache (self m') = index_cache (self m) /\
      forall c : Collab,
        c <> AsQueryEngine -> c <> EngineQuery ->
        calls c (trace m') = calls c (trace m)) /\
  (forall (s q : string) (m m' : Machine) r,
      index_cache (self m) !! s = None ->
      process_pdf s q false m = (r, m') ->
      (is_inr r = true ->
       calls_for FromDocuments s (trace m')
       = calls_for FromDocuments s (trace m) + 1 /\
       failed_calls_for FromDocuments s (trace m')
       = failed_calls_for FromDocuments s (trace m)) /\
      (calls_for FromDocuments s (trace m')
       = calls_for FromDocuments s (trace m) + 1 ->
       failed_calls_for FromDocuments s (trace m')
       = failed_calls_for FromDocuments s (trace m) ->
       exists (index : Index) (documents : Documents) (w w' : World),
         from_documents documents {| chunk_size := 1024; chunk_overlap := 20 |} w
         = (inr index, w') /\
         index_cache (self m') = <[s := index]> (index_cache (self m)))) /\
  (forall (s : string) (index : Index) (m m2 : Machine),
      index_cache (self m2) = <[s := index]> (index_cache (self m)) ->
      create_index_from_pdf s m2 = (inr index, m2)).
Proof.
  split; [exact process_pdf_reuses_index|].
  split; [exact process_pdf_stores_index|].
  intros s index m m2 H. apply create_index_cached.
  rewrite H. apply lookup_insert_eq.
Qed.

End Properties.

(** ** The properties on concrete machines *)

(** The scenario of the specification: "urlA" is a valid PDF, "urlB" is
    unreachable.  The batch returns a success item and an error item. *)
Example batch_scenario :
  (batch_process_pdfs (C := test_env) ["urlA"; "urlB"] "Summarize." m0).1
  = inr [ {| url := "urlA";
             result := "answer to Summarize. from index of %PDF urlA";
             status := "success" |};
          {| url := "urlB";
             result := "Error processing PDF: Error creating index: "
                       ++ "All connection attempts failed";
             status := "error" |} ].
Proof. vm_compute. reflexivity. Qed.

(** C1 on a fresh machine: the second call returns the first answer and
    changes nothing. *)
Lemma idempotent_caching_witness :
  let q := "What is this about?" in
  let answer := "answer to What is this about? from index of %PDF urlA" in
  let m1 := (process_pdf (C := test_env) "urlA" q true m0).2 in
  process_pdf (C := test_env) "urlA" q true m0 = (inr answer, m1) /\
  process_pdf (C := test_env) "urlA" q true m1 = (inr answer, m1) /\
  calls EngineQuery (trace m1) <= calls EngineQuery (trace m0) + 1.
Proof.
  intros q answer m1.
  assert (process_pdf (C := test_env) "urlA" q true m0 = (inr answer, m1)) as H
      by (vm_compute; reflexivity).
  split; [exact H|].
  exact (proj2 (idempotent_caching (C := test_env) "urlA" q answer m0 m1 H)).
Defined.

(** C6 on a fresh machine: the call for the unreachable source raises
    and the answer cache stays empty. *)
Lemma error_atomicity_witness :
  let e := Exception ("Error processing PDF: Error creating index: "
                      ++ "All connection attempts failed") in
  let m' := (process_pdf (C := test_env) "urlB" "Summarize." true m0).2 in
  process_pdf (C := test_env) "urlB" "Summarize." true m0 = (inl e, m') /\
  cache (self m') = cache (self m0).
Proof.
  intros e m'.
  assert (process_pdf (C := test_env) "urlB" "Summarize." true m0 = (inl e, m'))
    as H by (vm_compute; reflexivity).
  split; [exact H|].
  exact (proj1 (error_atomicity (C := test_env) "urlB" "Summarize." true m0 m' e H)).
Defined.

(** C8 on a fresh machine: after the call for ("a:b", "c"), the call for
    ("a", "b:c") returns the answer computed from the index of "a:b". *)
Lemma cache_key_collision_witness :
  let answer := "answer to c from index of %PDF a:b" in
  let m1 := (process_pdf (C := test_env) "a:b" "c" true m0).2 in
  cache_key "a:b" "c" = cache_key "a" "b:c" /\
  process_pdf (C := test_env) "a:b" "c" true m0 = (inr answer, m1) /\
  process_pdf (C := test_env) "a" "b:c" true m1 = (inr answer, m1).
Proof.
  intros answer m1.
  assert (cache_key "a:b" "c" = cache_key "a" "b:c") as Hk by reflexivity.
  assert (process_pdf (C := test_env) "a:b" "c" true m0 = (inr answer, m1)) as H
      by (vm_compute; reflexivity).
  split; [exact Hk|]. split; [exact H|].
  exact (proj2 (proj2 (cache_key_collision (C := test_env)))
           "a:b" "c" "a" "b:c" answer m0 m1 Hk H).
Defined.

(** C4 as the claim has it fails: without caching, the call for the
    unreachable source raises and has not called the Query Engine. *)
Lemma cache_bypass_counterexample :
  let out := process_pdf (C := test_env) "urlB" "Summarize." false m0 in
  out.1 = inl (Exception ("Error processing PDF: Error creating index: "
                          ++ "All connection attempts failed")) /\
  calls EngineQuery (trace out.2) = 0 /\
  ~ calls EngineQuery (trace m0) < calls EngineQuery (trace out.2).
Proof. vm_compute. split; [reflexivity|]. split; [reflexivity|]. lia. Qed.

(** C4 as the code has it.  On the machine a cached call left, the call
    without caching queries again and leaves the answer cache alone; for
    the unreachable source, index construction raises and the call
    raises without a call of the Query Engine. *)
Lemma cache_bypass_witness :
  let q := "Summarize." in
  let m1 := (process_pdf (C := test_env) "urlA" q true m0).2 in
  let out := process_pdf (C := test_env) "urlA" q false m1 in
  let e := Exception "Error creating index: All connection attempts failed" in
  let outB := process_pdf (C := test_env) "urlB" q false m0 in
  process_pdf (C := test_env) "urlA" q false m1 = (out.1, out.2) /\
  cache (self out.2) = cache (self m1) /\
  (is_inr out.1 = true ->
   calls EngineQuery (trace out.2) = calls EngineQuery (trace m1) + 1) /\
  create_index_from_pdf (C := test_env) "urlB" m0 = (inl e, outB.2) /\
  outB.1 = inl (Exception ("Error processing PDF: " ++ str e)) /\
  calls EngineQuery (trace outB.2) = calls EngineQuery (trace m0).
Proof.
  intros q m1 out e outB.
  assert (process_pdf (C := test_env) "urlA" q false m1 = (out.1, out.2)) as H
      by (vm_compute; reflexivity).
  assert (process_pdf (C := test_env) "urlB" q false m0 = (outB.1, outB.2))
    as HB by (vm_compute; reflexivity).
  assert (create_index_from_pdf (C := test_env) "urlB" m0 = (inl e, outB.2))
    as Hi by (vm_compute; reflexivity).
  pose proof (cache_bypass (C := test_env) "urlA" q m1 out.2 out.1 H)
    as (Hc & _ & Hq & _).
  pose proof (cache_bypass (C := test_env) "urlB" q m0 outB.2 outB.1 HB)
    as (_ & _ & _ & _ & Hidx & _).
  destruct (Hidx e outB.2 Hi) as (Hr & _ & Hn).
  split; [exact H|]. split; [exact Hc|]. split; [exact Hq|].
  split; [exact Hi|]. split; [exact Hr|exact Hn].
Defined.

(** C5 as the claim has it fails: when the first build raises, the two
    calls for "urlA" call the Index Builder twice. *)
Lemma index_reuse_counterexample :
  let out1 := process_pdf (C := test_env) "urlA" "q1" true m_flaky in
  let out2 := process_pdf (C := test_env) "urlA" "q2" true out1.2 in
  "q1" <> "q2" /\
  out1.1 = inl (Exception ("Error processing PDF: Error creating index: "
                           ++ "embedding quota exceeded")) /\
  out2.1 = inr "answer to q2 from index of %PDF urlA" /\
  calls_for FromDocuments "urlA" (trace m_flaky) = 0 /\
  calls_for FromDocuments "urlA" (trace out2.2) = 2.
Proof. vm_compute. repeat split; done. Qed.

(** C5 as the code has it.  On a fresh machine where builds succeed,
    two calls build once.  On the machine whose first build raises, the
    first call stores nothing and the second starts over and builds. *)
Lemma index_reuse_witness :
  let out1 := process_pdf (C := test_env) "urlA" "q1" true m0 in
  let out2 := process_pdf (C := test_env) "urlA" "q2" true out1.2 in
  let bad1 := process_pdf (C := test_env) "urlA" "q1" true m_flaky in
  let bad2 := process_pdf (C := test_env) "urlA" "q2" true bad1.2 in
  process_pdf (C := test_env) "urlA" "q1" true m0 = (out1.1, out1.2) /\
  process_pdf (C := test_env) "urlA" "q2" true out1.2 = (out2.1, out2.2) /\
  is_inr out1.1 = true /\
  calls_for FromDocuments "urlA" (trace out2.2)
  <= calls_for FromDocuments "urlA" (trace m0) + 1 /\
  is_inr bad1.1 = false /\
  index_cache (self bad1.2) = index_cache (self m_flaky) /\
  calls_for HttpxGet "urlA" (trace bad2.2)
  = calls_for HttpxGet "urlA" (trace bad1.2) + 1 /\
  calls_for FromDocuments "urlA" (trace bad2.2)
  = calls_for FromDocuments "urlA" (trace bad1.2) + 1.
Proof.
  intros out1 out2 bad1 bad2.
  assert (process_pdf (C := test_env) "urlA" "q1" true m0 = (out1.1, out1.2))
    as H1 by (vm_compute; reflexivity).
  assert (process_pdf (C := test_env) "urlA" "q2" true out1.2 = (out2.1, out2.2))
    as H2 by (vm_compute; reflexivity).
  assert (is_inr out1.1 = true) as Hr by (vm_compute; reflexivity).
  assert (process_pdf (C := test_env) "urlA" "q1" true m_flaky
          = (bad1.1, bad1.2)) as B1 by (vm_compute; reflexivity).
  assert (process_pdf (C := test_env) "urlA" "q2" true bad1.2
          = (bad2.1, bad2.2)) as B2 by (vm_compute; reflexivity).
  assert (failed_calls_for FromDocuments "urlA" (trace bad1.2)
          <> failed_calls_for FromDocuments "urlA" (trace m_flaky)) as Bf
      by (vm_compute; discriminate).
  assert (index_cache (self bad1.2) !! "urlA" = None) as Bmiss
      by (vm_compute; reflexivity).
  assert (true = false \/ cache (self bad1.2) !! cache_key "urlA" "q2" = None)
    as Bkey by (right; vm_compute; reflexivity).
  pose proof (index_reuse (C := test_env))
    as (_ & Honce & _ & _ & _ & Hfail & Hover).
  destruct (Hfail "urlA" "q1" true m_flaky bad1.2 bad1.1 B1 Bf)
    as (Hraise & _ & Hsame & _).
  destruct (Hover "urlA" "q2" true bad1.2 bad2.2 bad2.1 Bmiss Bkey B2)
    as (Hfetch & Hbuild).
  split; [exact H1|]. split; [exact H2|]. split; [exact Hr|].
  split; [exact (Honce "urlA" "q1" "q2" m0 out1.2 out2.2 out1.1 out2.1 H1 H2
                   (or_intror Hr))|].
  split; [exact Hraise|]. split; [exact Hsame|]. split; [exact Hfetch|].
  apply Hbuild. vm_compute. repeat split; reflexivity.
Defined.

(** C7 as the claim has it fails: a failed index construction and a
    failed query both reach the caller as the one class [Exception];
    neither is an [IndexBuildError] or a [QueryProcessingError]. *)
Lemma typed_errors_counterexample :
  let r1 := (create_index_from_pdf (C := test_env) "urlB" m0).1 in
  let r2 := (process_pdf (C := test_env) "urlA" "" true m0).1 in
  r1 = inl (MkExc "Exception"
              "Error creating index: All connection attempts failed") /\
  r2 = inl (MkExc "Exception" "Error processing PDF: empty query") /\
  "Exception" <> "IndexBuildError" /\
  "Exception" <> "QueryProcessingError".
Proof. vm_compute. repeat split; done. Qed.

(** C7 as the code has it, for the unreachable source. *)
Lemma error_wrapping_witness :
  let e := Exception "Error creating index: All connection attempts failed" in
  let m' := (create_index_from_pdf (C := test_env) "urlB" m0).2 in
  create_index_from_pdf (C := test_env) "urlB" m0 = (inl e, m') /\
  exc_class e = "Exception" /\
  exists cause : PyExc,
    process_pdf (C := test_env) "urlB" "Summarize." true m0
    = (inl (Exception ("Error processing PDF: Error creating index: "
                       ++ str cause)), m').
Proof.
  intros e m'.
  assert (create_index_from_pdf (C := test_env) "urlB" m0 = (inl e, m')) as H
      by (vm_compute; reflexivity).
  assert (true = false \/
          cache (self m0) !! cache_key "urlB" "Summarize." = None) as Hm
      by (right; vm_compute; reflexivity).
  pose proof (error_wrapping (C := test_env)) as (_ & _ & Hidx & Hcls & _).
  split; [exact H|]. split; [exact (Hcls "urlB" m0 m' e H)|].
  exact (Hidx "urlB" "Summarize." true m0 m' e Hm H).
Defined.

(** C9 on concrete machines: after a first call without caching has
    built the index of "urlA", a second one builds nothing; the first
    one, run on a fresh machine, stores the index it built. *)
Lemma use_cache_spares_index_cache_witness :
  let index := "index of %PDF urlA" in
  let out1 := process_pdf (C := test_env) "urlA" "q1" false m0 in
  let out2 := process_pdf (C := test_env) "urlA" "q2" false out1.2 in
  index_cache (self m0) !! "urlA" = None /\
  index_cache (self out1.2) !! "urlA" = Some index /\
  index_cache (self out2.2) = index_cache (self out1.2) /\
  calls FromDocuments (trace out2.2) = calls FromDocuments (trace out1.2) /\
  calls HttpxGet (trace out2.2) = calls HttpxGet (trace out1.2) /\
  (is_inr out1.1 = true ->
   calls_for FromDocuments "urlA" (trace out1.2)
   = calls_for FromDocuments "urlA" (trace m0) + 1 /\
   failed_calls_for FromDocuments "urlA" (trace out1.2)
   = failed_calls_for FromDocuments "urlA" (trace m0)).
Proof.
  intros index out1 out2.
  assert (index_cache (self m0) !! "urlA" = None) as Hmiss
      by (vm_compute; reflexivity).
  assert (index_cache (self out1.2) !! "urlA" = Some index) as Hhit
      by (vm_compute; reflexivity).
  assert (process_pdf (C := test_env) "urlA" "q1" false m0 = (out1.1, out1.2))
    as H1 by (vm_compute; reflexivity).
  assert (process_pdf (C := test_env) "urlA" "q2" false out1.2 = (out2.1, out2.2))
    as H2 by (vm_compute; reflexivity).
  pose proof (use_cache_spares_index_cache (C := test_env)) as (Hreuse & Hstore & _).
  destruct (Hreuse "urlA" "q2" index out1.2 out2.2 out2.1 Hhit H2) as [Hic Hcalls].
  split; [exact Hmiss|]. split; [exact Hhit|]. split; [exact Hic|].
  split; [apply Hcalls; discriminate|].
  split; [apply Hcalls; discriminate|].
  exact (proj1 (Hstore "urlA" "q1" m0 out1.2 out1.1 Hmiss H1)).
Defined.

(** ** The list of URLs of the batch mode *)

Section Parsing.

Lemma blank_lstrip (s : string) : blank (lstrip s) = blank s.
Proof.
  induction s as [|c s IH]; simpl; [done|].
  destruct (py_isspace c) eqn:Hc; simpl; [done|]. by rewrite Hc.
Qed.

Lemma lstrip_empty_iff (s : string) : lstrip s = EmptyString <-> blank s = true.
Proof.
  induction s as [|c s IH]; simpl; [done|].
  destruct (py_isspace c); simpl; [done|]. split; discriminate.
Qed.

Lemma rstrip_empty_iff (s : string) : rstrip s = EmptyString <-> blank s = true.
Proof.
  induction s as [|c s IH]; simpl; [done|].
  destruct (rstrip s) as [|d r] eqn:Hr.
  - destruct (py_isspace c); simpl.
    + split; [intros _; by apply IH|done].
    + split; discriminate.
  - split; [discriminate|]. intros [_ Hb]%andb_prop.
    apply IH in Hb. discriminate.
Qed.

Lemma strip_empty_iff (s : string) : strip s = EmptyString <-> blank s = true.
Proof. unfold strip. by rewrite rstrip_empty_iff, blank_lstrip. Qed.

Lemma truthy_false_iff (s : string) : truthy s = false <-> s = EmptyString.
Proof. by destruct s. Qed.

Lemma rstrip_rstrip (s : string) : rstrip (rstrip s) = rstrip s.
Proof.
  induction s as [|c s IH]; simpl; [done|].
  destruct (rstrip s) as [|d r] eqn:Hr.
  - destruct (py_isspace c) eqn:Hc; simpl; [done|]. by rewrite Hc.
  - change (rstrip (String c (String d r))) with
      (match rstrip (String d r) with
       | EmptyString => if py_isspace c then EmptyString else String c EmptyString
       | r' => String c r'
       end).
    by rewrite IH.
Qed.

Lemma lstrip_head_ok (s : string) : head_ok (lstrip s).
Proof.
  induction s as [|c s IH]; simpl; [done|].
  destruct (py_isspace c) eqn:Hc; [done|]. exact Hc.
Qed.

Lemma lstrip_id (s : string) : head_ok s -> lstrip s = s.
Proof. destruct s as [|c s]; simpl; [done|]. by intros ->. Qed.

Lemma rstrip_head_ok (s : string) : head_ok s -> head_ok (rstrip s).
Proof.
  destruct s as [|c s]; simpl; [done|]. intros Hc.
  destruct (rstrip s); [by rewrite Hc|done].
Qed.

Lemma lstrip_strip (s : string) : lstrip (strip s) = strip s.
Proof. apply lstrip_id, rstrip_head_ok, lstrip_head_ok. Qed.

Lemma rstrip_strip (s : string) : rstrip (strip s) = strip s.
Proof. apply rstrip_rstrip. Qed.

Lemma strip_strip (s : string) : strip (strip s) = strip s.
Proof. unfold strip at 1. by rewrite lstrip_strip, rstrip_strip. Qed.

Lemma has_char_lstrip c (s : string) :
  has_char c s = false -> has_char c (lstrip s) = false.
Proof.
  induction s as [|d s IH]; simpl; [done|].
  intros [? ?]%orb_false_elim.
  destruct (py_isspace d); [by apply IH|]. simpl. by apply orb_false_intro.
Qed.

Lemma has_char_rstrip c (s : string) :
  has_char c s = false -> has_char c (rstrip s) = false.
Proof.
  induction s as [|d s IH]; simpl; [done|].
  intros [Hd Hs]%orb_false_elim. specialize (IH Hs).
  destruct (rstrip s) as [|e r].
  - destruct (py_isspace d); [done|]. simpl. by rewrite Hd.
  - simpl in *. by rewrite Hd, IH.
Qed.

Lemma split_nonempty sep (s : string) : split sep s <> [].
Proof.
  destruct s as [|c s]; simpl; [done|].
  destruct (Ascii.eqb c sep); [done|]. by destruct (split sep s).
Qed.

Lemma split_no_sep sep (s part : string) :
  In part (split sep s) -> has_char sep part = false.
Proof.
  revert part. induction s as [|c s IH]; intros part; simpl.
  - by intros [<-|[]].
  - destruct (Ascii.eqb c sep) eqn:Hc.
    + intros [<-|?]; [done|by apply IH].
    + destruct (split sep s) as [|h t] eqn:Hs.
      * by intros [<-|[]]; simpl; rewrite Hc.
      * intros [<-|?]; [|apply IH; by right].
        simpl. rewrite Hc. simpl. apply IH. by left.
Qed.

Lemma split_app sep (a b : string) :
  split sep (a ++ String sep b) = (split sep a ++ split sep b)%list.
Proof.
  induction a as [|c a IH]; simpl.
  - by rewrite Ascii.eqb_refl.
  - destruct (Ascii.eqb c sep); rewrite IH; [done|].
    pose proof (split_nonempty sep a). by destruct (split sep a).
Qed.

Lemma split_one sep (s : string) : has_char sep s = false -> split sep s = [s].
Proof.
  induction s as [|c s IH]; simpl; [done|].
  intros [-> Hs]%orb_false_elim. by rewrite (IH Hs).
Qed.

Lemma blank_split (s : string) :
  blank s = forallb blank (split newline s).
Proof.
  induction s as [|c s IH]; simpl; [done|].
  destruct (Ascii.eqb c newline) eqn:Hc.
  - apply Ascii.eqb_eq in Hc as ->. simpl. exact IH.
  - pose proof (split_nonempty newline s).
    destruct (split newline s) as [|h t]; [done|].
    simpl in *. rewrite IH. by rewrite andb_assoc.
Qed.

Lemma urls_list_nil_iff (text : string) :
  urls_list text = [] <-> blank text = true.
Proof.
  unfold urls_list. rewrite blank_split.
  induction (split newline text) as [|part parts IH]; simpl; [done|].
  destruct (truthy (strip part)) eqn:Hp; simpl.
  - split; [done|]. intros [Hb _]%andb_prop.
    apply strip_empty_iff in Hb. rewrite Hb in Hp. done.
  - apply truthy_false_iff, strip_empty_iff in Hp. by rewrite Hp.
Qed.

(** X1: every URL the batch mode hands over is non-empty, has no
    whitespace at either end and holds no line break. *)
Theorem urls_list_clean (text u : string) :
  In u (urls_list text) ->
  clean_url u /\ lstrip u = u /\ rstrip u = u /\ blank u = false.
Proof.
  unfold urls_list. rewrite in_map_iff.
  intros (part & <- & [Hin Hp]%filter_In).
  assert (strip part <> EmptyString) as Hne by (by destruct (strip part)).
  split; [split; [done|split; [apply strip_strip|]]|].
  - apply has_char_rstrip, has_char_lstrip. by eapply split_no_sep.
  - split; [apply lstrip_strip|]. split; [apply rstrip_strip|].
    destruct (blank (strip part)) eqn:Hb; [|done].
    apply strip_empty_iff in Hb. by rewrite strip_strip in Hb.
Qed.

(** X2: the test the script makes on the text of the URLs,
    [pdf_urls and pdf_urls.strip()], holds exactly when the list of
    URLs is not empty. *)
Theorem filled_iff_urls (text : string) :
  filled (Some text) = true <-> urls_list text <> [].
Proof.
  unfold filled. rewrite urls_list_nil_iff, <- strip_empty_iff.
  destruct text as [|c text]; [done|]. simpl truthy at 1. simpl andb.
  destruct (strip (String c text)); simpl; split; done.
Qed.

(** X3: the URLs of two texts put on separate lines are the URLs of
    the first followed by the URLs of the second. *)
Theorem urls_list_lines (a b : string) :
  urls_list (a ++ String newline b) = (urls_list a ++ urls_list b)%list.
Proof.
  unfold urls_list. by rewrite split_app, List.filter_app, List.map_app.
Qed.

Lemma urls_list_one (u : string) : clean_url u -> urls_list u = [u].
Proof.
  intros (Hne & Hs & Hnl). unfold urls_list.
  rewrite (split_one _ _ Hnl). cbn [List.filter]. rewrite Hs.
  destruct u as [|c u]; [done|]. cbn [truthy List.map]. by rewrite Hs.
Qed.

(** X4: clean URLs written one per line are read back as they are. *)
Theorem urls_list_join_lines (urls : list string) :
  Forall clean_url urls -> urls_list (join_lines urls) = urls.
Proof.
  induction 1 as [|u urls Hu Hrest IH]; [done|].
  destruct urls as [|u' urls'].
  - by apply urls_list_one.
  - change (join_lines (u :: u' :: urls'))
      with (u ++ String newline (join_lines (u' :: urls'))).
    by rewrite urls_list_lines, IH, urls_list_one.
Qed.

End Parsing.

(** ** More on the methods of [PDFProcessor] *)

(** The methods unfolded down to the collaborator calls, with a case for
    each outcome of each call. *)
Ltac unfold_methods :=
  unfold process_pdf, process_pdf_try, create_index_from_pdf,
    create_index_try, bind, try_except, invoke, lift,
    ret, raise, get_cache, get_index_cache, cache_setitem,
    index_cache_setitem in *.

Ltac merge_calls :=
  repeat match goal with
         | H1 : ?x = _, H2 : ?x = _ |- _ => rewrite H1 in H2; simplify_eq/=
         end.

Ltac run_methods :=
  unfold_methods; repeat (case_match; simplify_eq/=; merge_calls).

Ltac count_events :=
  rewrite ?calls_app, ?calls_for_app, ?failed_calls_for_app,
    ?calls_one, ?calls_for_one, ?failed_calls_for_one in *;
  simpl in *; repeat case_decide; try lia; try naive_solver lia.

Section Methods.

Context {C : Collaborators}.

(** X5: on a miss, a call of [create_index_from_pdf] that returns has
    fetched, written, loaded, built and removed, once each and in this
    order; it has stored the index it returns and left the answer cache
    alone. *)
Theorem create_index_success_trace (s : string) (index : Index)
    (m m' : Machine) :
  index_cache (self m) !! s = None ->
  create_index_from_pdf s m = (inr index, m') ->
  trace m' = (trace m ++ build_calls s)%list /\
  index_cache (self m') = <[s := index]> (index_cache (self m)) /\
  cache (self m') = cache (self m).
Proof.
  intros Hmiss H. run_methods. unfold build_calls.
  by rewrite <- !app_assoc.
Qed.

(** X6: when [create_index_from_pdf] raises and it is not [os.remove]
    that raised, [os.remove] has not been called at all and no index has
    been stored: what was written to "temp.pdf" stays there. *)
Theorem no_cleanup_on_failure (s : string) (m m' : Machine) (e : PyExc) :
  create_index_from_pdf s m = (inl e, m') ->
  failed_calls_for OsRemove s (trace m')
  = failed_calls_for OsRemove s (trace m) ->
  calls OsRemove (trace m') = calls OsRemove (trace m) /\
  index_cache (self m') = index_cache (self m).
Proof.
  intros H Hf. run_methods; try (split; [count_events|done]).
  exfalso. revert Hf. count_events.
Qed.

(** X7: when it is [os.remove] that raises, [create_index_from_pdf]
    raises although the index is built and stored; the next call for the
    same source returns that index and calls no collaborator. *)
Theorem index_kept_when_cleanup_fails (s : string) (m m' : Machine)
    (e : PyExc) :
  create_index_from_pdf s m = (inl e, m') ->
  failed_calls_for OsRemove s (trace m')
  <> failed_calls_for OsRemove s (trace m) ->
  exists index : Index,
    index_cache (self m') = <[s := index]> (index_cache (self m)) /\
    create_index_from_pdf s m' = (inr index, m').
Proof.
  intros H Hf.
  assert (exists index : Index,
             index_cache (self m') = <[s := index]> (index_cache (self m)))
    as (index & Hi).
  { run_methods; try solve [exfalso; apply Hf; count_events]. by eexists. }
  exists index. split; [done|].
  apply create_index_cached. rewrite Hi. apply lookup_insert_eq.
Qed.

Lemma process_pdf_cache_change (s q : string) (use_cache : bool)
    (m m' : Machine) (r : PyExc + string) :
  process_pdf s q use_cache m = (r, m') ->
  cache (self m') = cache (self m) \/
  (use_cache = true /\ cache (self m) !! cache_key s q = None /\
   exists answer, r = inr answer /\
     cache (self m') = <[cache_key s q := answer]> (cache (self m))).
Proof.
  intros H. apply process_pdf_inv in H.
  destruct H as [(_ & -> & _) | (Hm & [(a & -> & Ht) | (c & -> & Ht)])].
  - by left.
  - apply process_pdf_try_cache in Ht.
    destruct use_cache; [|by left].
    destruct Hm as [?|Hm]; [done|]. right. eauto.
  - apply process_pdf_try_cache in Ht. by left.
Qed.

Lemma process_pdf_cache_grows (s q : string) (use_cache : bool)
    (m m' : Machine) (r : PyExc + string) :
  process_pdf s q use_cache m = (r, m') ->
  cache (self m) ⊆ cache (self m').
Proof.
  intros H. apply process_pdf_cache_change in H.
  destruct H as [-> | (_ & Hm & a & _ & ->)]; [done|].
  by apply insert_subseteq.
Qed.

Lemma batch_cache_grows (pdf_urls : list string) (query : string)
    (m m' : Machine) r :
  batch_process_pdfs pdf_urls query m = (r, m') ->
  cache (self m) ⊆ cache (self m').
Proof.
  revert m m' r. induction pdf_urls as [|u us IH]; intros m m' r H.
  - unfold batch_process_pdfs in H. simpl in H. unfold ret in H. by simplify_eq.
  - rewrite batch_cons in H.
    destruct (process_pdf u query true m) as [r1 m1] eqn:H1.
    apply process_pdf_cache_grows in H1.
    destruct (batch_process_pdfs us query m1) as [r2 m2] eqn:H2.
    apply IH in H2.
    assert (m' = m2) as -> by (destruct r2; by simplify_eq).
    by etrans.
Qed.

(** X8: the answer cache only grows.  A call of [process_pdf] keeps
    every entry it finds, with the same text, and touches no key but
    its own; what it stores under its own key is the answer it returns.
    A batch keeps every entry too. *)
Theorem answer_cache_grows :
  (forall (s q : string) (use_cache : bool) (m m' : Machine) r,
      process_pdf s q use_cache m = (r, m') ->
      cache (self m) ⊆ cache (self m') /\
      (forall key : string,
          key <> cache_key s q ->
          cache (self m') !! key = cache (self m) !! key) /\
      (cache (self m') !! cache_key s q = cache (self m) !! cache_key s q \/
       exists answer, r = inr answer /\
                      cache (self m') !! cache_key s q = Some answer)) /\
  (forall (pdf_urls : list string) (query : string) (m m' : Machine) r,
      batch_process_pdfs pdf_urls query m = (r, m') ->
      cache (self m) ⊆ cache (self m')).
Proof.
  split; [|exact batch_cache_grows].
  intros s q uc m m' r H. split; [by eapply process_pdf_cache_grows|].
  apply process_pdf_cache_change in H.
  destruct H as [-> | (_ & _ & a & -> & ->)].
  - split; [done|by left].
  - split.
    + intros key Hk. by rewrite lookup_insert_ne.
    + right. exists a. by rewrite lookup_insert_eq.
Qed.

(** The calls of a [process_pdf] that returns. *)
Lemma process_pdf_returns_trace (s q answer : string) (use_cache : bool)
    (m m' : Machine) :
  process_pdf s q use_cache m = (inr answer, m') ->
  (use_cache = true /\ cache (self m) !! cache_key s q = Some answer /\
   m' = m) \/
  ((use_cache = false \/ cache (self m) !! cache_key s q = None) /\
   is_Some (index_cache (self m') !! s) /\
   trace m'
   = (trace m
      ++ match index_cache (self m) !! s with
         | Some _ => []
         | None => build_calls s
         end
      ++ query_calls s)%list).
Proof.
  intros H. pose proof H as H'. apply process_pdf_inv in H'.
  destruct H' as [(Hu & -> & a & Hc & ?) | (Hm & _)]; simplify_eq.
  - left. done.
  - right. split; [done|].
    unfold build_calls, query_calls. run_methods.
    all: try by (destruct Hm; simplify_eq).
    all: split; [first [by rewrite lookup_insert_eq | by eexists]|].
    all: by rewrite <- ?app_assoc.
Qed.

(** X9: what an answer costs.  A call of [process_pdf] that returns has
    either used the answer cache and called nothing, or made the two
    query calls, preceded by the five build calls exactly when the
    source had no index; in the second case the source has an index
    afterwards. *)
Theorem process_pdf_cost (s q answer : string) (use_cache : bool)
    (m m' : Machine) :
  process_pdf s q use_cache m = (inr answer, m') ->
  (use_cache = true /\ cache (self m) !! cache_key s q = Some answer /\
   m' = m) \/
  ((use_cache = false \/ cache (self m) !! cache_key s q = None) /\
   is_Some (index_cache (self m') !! s) /\
   trace m'
   = (trace m
      ++ match index_cache (self m) !! s with
         | Some _ => []
         | None => build_calls s
         end
      ++ query_calls s)%list).
Proof. apply process_pdf_returns_trace. Qed.

Lemma batch_success_cached (pdf_urls : list string) (query : string)
    (m m' : Machine) (items : list BatchItem) (item : BatchItem) :
  batch_process_pdfs pdf_urls query m = (inr items, m') ->
  In item items ->
  status item = "success" ->
  cache (self m') !! cache_key (url item) query = Some (result item).
Proof.
  revert m items. induction pdf_urls as [|u us IH]; intros m items H Hin Hs.
  - unfold batch_process_pdfs in H. simpl in H. unfold ret in H.
    simplify_eq. destruct Hin.
  - rewrite batch_cons in H.
    destruct (process_pdf u query true m) as [r1 m1] eqn:H1.
    destruct (batch_process_pdfs us query m1) as [[e2|items2] m2] eqn:H2;
      [done|]. simplify_eq.
    destruct Hin as [<-|Hin]; [|by eapply IH].
    destruct r1 as [e|a]; [done|]. simpl.
    apply process_pdf_cached_after in H1.
    apply batch_cache_grows in H2.
    by eapply lookup_weaken.
Qed.

(** X10: a source that a batch has answered is answered from the cache
    afterwards: for every success item of the batch, a further call of
    [process_pdf] for its source with the same query returns the text of
    the item and changes nothing, so a source listed twice is fetched,
    built and queried once. *)
Theorem batch_answers_are_cached (pdf_urls : list string) (query : string)
    (m m' : Machine) (items : list BatchItem) (item : BatchItem) :
  batch_process_pdfs pdf_urls query m = (inr items, m') ->
  In item items ->
  status item = "success" ->
  process_pdf (url item) query true m' = (inr (result item), m') /\
  exists items2,
    batch_process_pdfs (pdf_urls ++ [url item]) query m
    = (inr (items ++ items2)%list, m') /\
    items2 = [ {| url := url item; result := result item;
                  status := "success" |} ].
Proof.
  intros H Hin Hs.
  assert (process_pdf (url item) query true m' = (inr (result item), m'))
    as Hhit.
  { apply process_pdf_hit. by eapply batch_success_cached. }
  split; [done|]. eexists. split; [|reflexivity].
  rewrite batch_app, H, batch_cons, Hhit. done.
Qed.

End Methods.

(** ** The script *)

Section ScriptProperties.

Context {C : Collaborators} {I : Icons}.

(** What the batch mode shows for the results [items]. *)
Lemma batch_mode_filled (text query : string) (m : Machine) :
  filled (Some text) = true ->
  exists (items : list BatchItem) (m' : Machine),
    batch_process_pdfs (urls_list text) query m = (inr items, m') /\
    url <$> items = urls_list text /\
    batch_mode (Some text) query m
    = (inr ([Markdown "## Analysis Results"; ProgressStart; StatusStart;
             Spinner "Processing PDFs..."]
            ++ concat (imap (show_result (length items)) items)
            ++ [ProgressEmpty; StatusEmpty;
                Success ("Completed analysis of " ++ pretty (length items)
                         ++ " PDFs")])%list, m').
Proof.
  intros Hf.
  destruct (batch_order_length_aux (urls_list text) query m)
    as (items & m' & Hrun & Hmap).
  exists items, m'. split; [done|]. split; [done|].
  unfold batch_mode. rewrite Hf. unfold bind. by rewrite Hrun.
Qed.

Lemma progress_values_results (n : nat) (items : list BatchItem) (off : nat) :
  progress_values (concat (imap (fun k => show_result n (off + k)) items))
  = imap (fun k _ => (off + k + 1, n)) items.
Proof.
  revert off. induction items as [|item items IH]; intros off; [done|].
  rewrite !imap_cons. simpl. f_equal.
  rewrite (imap_ext ((fun k => show_result n (off + k)) ∘ S)
             (fun k => show_result n (S off + k)) items)
    by (intros k x _; simpl; by rewrite Nat.add_succ_r).
  rewrite (imap_ext ((fun k (_ : BatchItem) => (off + k + 1, n)) ∘ S)
             (fun k _ => (S off + k + 1, n)) items)
    by (intros k x _; simpl; f_equal; lia).
  apply IH.
Qed.

Lemma expander_labels_results (n : nat) (items : list BatchItem) (off : nat) :
  expander_labels (concat (imap (fun k => show_result n (off + k)) items))
  = (fun item => icon_page ++ " " ++ prefix 50 (url item) ++ "...") <$> items.
Proof.
  revert off. induction items as [|item items IH]; intros off; [done|].
  rewrite imap_cons, fmap_cons. simpl. f_equal.
  rewrite (imap_ext ((fun k => show_result n (off + k)) ∘ S)
             (fun k => show_result n (S off + k)) items)
    by (intros k x _; simpl; by rewrite Nat.add_succ_r).
  apply IH.
Qed.

Lemma filled_not_blank (text : string) :
  filled (Some text) = true <-> blank text = false.
Proof.
  unfold filled. destruct (blank text) eqn:Hb.
  - apply strip_empty_iff in Hb. rewrite Hb. simpl.
    rewrite andb_false_r. done.
  - destruct text as [|c text]; [done|]. simpl truthy at 1. simpl andb.
    destruct (strip (String c text)) eqn:Hs; [|done].
    apply strip_empty_iff in Hs. congruence.
Qed.

(** X11: when the button is pressed and the text of the chosen mode
    holds nothing but whitespace, the script shows one warning and
    nothing else happens: no collaborator is called and the processor
    of the session is as it was. *)
Theorem blank_input_only_warns (inp : Inputs)
    (session_state : option PDFProcessor) (w : World) (tr : list Event) :
  process_button inp = true ->
  blank (if String.eqb (is_batch inp) "Batch Processing"
         then pdf_urls_input inp else pdf_url_input inp) = true ->
  exists msg : string,
    script inp session_state w tr
    = (inr [Warning msg],
       {| self := session_processor session_state; world := w; trace := tr |}).
Proof.
  intros Hb Hblank. unfold script, sidebar, main_content.
  destruct (String.eqb (is_batch inp) "Batch Processing") eqn:Hmode;
    cbn [v_process_button v_is_batch v_pdf_urls v_pdf_url v_query v_use_cache];
    rewrite Hb, Hmode.
  - unfold batch_mode.
    destruct (filled (Some (pdf_urls_input inp))) eqn:Hf;
      [apply filled_not_blank in Hf; congruence|]. by eexists.
  - unfold single_mode.
    destruct (filled (Some (pdf_url_input inp))) eqn:Hf;
      [apply filled_not_blank in Hf; congruence|]. by eexists.
Qed.

(** X12: in the single mode, the text of a failure is shown with the
    prefix "Error processing PDF: " twice: once from [process_pdf] and
    once from the script. *)
Theorem single_mode_error (u q : string) (use_cache : bool)
    (m m' : Machine) (e : PyExc) :
  filled (Some u) = true ->
  process_pdf u q use_cache m = (inl e, m') ->
  exists cause : PyExc,
    str e = "Error processing PDF: " ++ str cause /\
    single_mode (Some u) q use_cache m
    = (inr [Markdown "## Analysis Results"; Spinner "Analyzing PDF...";
            Error ("Error processing PDF: Error processing PDF: "
                   ++ str cause)], m').
Proof.
  intros Hf H. destruct (process_pdf_raises _ _ _ _ _ _ H) as (cause & ->).
  exists cause. split; [done|].
  unfold single_mode. rewrite Hf. unfold try_except, bind. by rewrite H.
Qed.

(** X13: no exception leaves the main area: whatever the variables and
    the machine, the script returns what it shows. *)
Theorem main_content_never_raises (v : Vars) (m : Machine) :
  exists (ds : list Display) (m' : Machine), main_content v m = (inr ds, m').
Proof.
  unfold main_content. destruct (v_process_button v); [|by eexists _, _].
  destruct (String.eqb (v_is_batch v) "Batch Processing").
  - destruct (v_pdf_urls v) as [text|] eqn:Hv; [|by eexists _, _].
    destruct (filled (Some text)) eqn:Hf.
    + destruct (batch_mode_filled text (v_query v) m Hf)
        as (items & m' & _ & _ & ->). by eexists _, _.
    + unfold batch_mode. rewrite Hf. by eexists _, _.
  - destruct (v_pdf_url v) as [text|] eqn:Hv; [|by eexists _, _].
    unfold single_mode. destruct (filled (Some text)); [|by eexists _, _].
    unfold try_except, bind.
    destruct (process_pdf text (v_query v) (v_use_cache v) m) as [[e|a] m'];
      by eexists _, _.
Qed.

(** X14: in the batch mode the progress bar is never asked to divide by
    zero nor to go beyond the end: with [n] URLs in the text, [n] is not
    zero and the bar is set to 1/n, 2/n, ..., n/n in this order. *)
Theorem batch_progress (text query : string) (m m' : Machine)
    (ds : list Display) :
  filled (Some text) = true ->
  batch_mode (Some text) query m = (inr ds, m') ->
  0 < length (urls_list text) /\
  progress_values ds
  = (fun k => (k + 1, length (urls_list text)))
      <$> seq 0 (length (urls_list text)) /\
  forall done total : nat,
    In (done, total) (progress_values ds) -> 0 < done <= total.
Proof.
  intros Hf H.
  destruct (batch_mode_filled text query m Hf) as (items & m1 & _ & Hmap & Hds).
  rewrite Hds in H. simplify_eq.
  assert (length items = length (urls_list text)) as Hlen
      by by rewrite <- Hmap, length_fmap.
  assert (0 < length (urls_list text)) as Hpos.
  { apply filled_not_blank in Hf.
    destruct (urls_list text) eqn:Hu; simpl; [|lia].
    apply urls_list_nil_iff in Hu. congruence. }
  assert (progress_values
            ([Markdown "## Analysis Results"; ProgressStart; StatusStart;
              Spinner "Processing PDFs..."]
             ++ concat (imap (show_result (length items)) items)
             ++ [ProgressEmpty; StatusEmpty;
                 Success ("Completed analysis of " ++ pretty (length items)
                          ++ " PDFs")])
          = (fun k => (k + 1, length (urls_list text)))
              <$> seq 0 (length (urls_list text))) as Hpv.
  { unfold progress_values at 1. rewrite !omap_app. simpl.
    rewrite app_nil_r.
    change (omap _ (concat (imap (show_result (length items)) items)))
      with (progress_values
              (concat (imap (fun k => show_result (length items) (0 + k)) items))).
    rewrite progress_values_results. simpl.
    rewrite (imap_seq_0 items (fun k => (k + 1, length items))).
    by rewrite Hlen. }
  split; [done|]. split; [done|].
  intros d t Hin. rewrite Hpv in Hin.
  apply list_elem_of_In, list_elem_of_fmap in Hin as (k & ? & Hk).
  apply elem_of_seq in Hk. simplify_eq. lia.
Qed.

(** X15: the batch mode shows one expander for each URL of the text, in
    the order of the text, labelled with the first 50 characters of the
    URL. *)
Theorem batch_expanders (text query : string) (m m' : Machine)
    (ds : list Display) :
  filled (Some text) = true ->
  batch_mode (Some text) query m = (inr ds, m') ->
  expander_labels ds
  = (fun u => icon_page ++ " " ++ prefix 50 u ++ "...") <$> urls_list text.
Proof.
  intros Hf H.
  destruct (batch_mode_filled text query m Hf) as (items & m1 & _ & Hmap & Hds).
  rewrite Hds in H. simplify_eq.
  unfold expander_labels at 1. rewrite !omap_app. simpl. rewrite app_nil_r.
  change (omap _ (concat (imap (show_result (length items)) items)))
    with (expander_labels
            (concat (imap (fun k => show_result (length items) (0 + k)) items))).
  rewrite expander_labels_results, <- Hmap, <- list_fmap_compose. done.
Qed.

(** X16: the session keeps what it has answered.  When a run of the
    script in the single mode with "Use cache" ticked has shown an
    answer, a second run with the same widget values on the session the
    first one left shows the same things and changes nothing: no
    collaborator is called. *)
Theorem session_keeps_answers (inp : Inputs)
    (session_state : option PDFProcessor) (w : World) (tr : list Event)
    (answer : string) (m1 : Machine) :
  process_button inp = true ->
  String.eqb (is_batch inp) "Batch Processing" = false ->
  use_cache_input inp = true ->
  filled (Some (pdf_url_input inp)) = true ->
  process_pdf (pdf_url_input inp) (query_input inp) true
    {| self := session_processor session_state; world := w; trace := tr |}
  = (inr answer, m1) ->
  exists ds : list Display,
    In (Markdown answer) ds /\
    script inp session_state w tr = (inr ds, m1) /\
    script inp (Some (self m1)) (world m1) (trace m1) = (inr ds, m1).
Proof.
  intros Hb Hmode Hc Hf H.
  assert (process_pdf (pdf_url_input inp) (query_input inp) true m1
          = (inr answer, m1)) as H2
      by (apply process_pdf_hit; by eapply process_pdf_cached_after).
  eexists. split; [|split].
  2:{ unfold script, sidebar, main_content. rewrite Hmode.
      cbn [v_process_button v_is_batch v_pdf_urls v_pdf_url v_query v_use_cache].
      rewrite Hb, Hmode, Hc. unfold single_mode. rewrite Hf.
      unfold try_except, bind. rewrite H. reflexivity. }
  - simpl. auto 10.
  - unfold script, sidebar, main_content. rewrite Hmode.
    cbn [v_process_button v_is_batch v_pdf_urls v_pdf_url v_query v_use_cache
         session_processor].
    rewrite Hb, Hmode, Hc. unfold single_mode. rewrite Hf.
    unfold try_except, bind.
    replace {| self := self m1; world := world m1; trace := trace m1 |}
      with m1 by by destruct m1.
    by rewrite H2.
Qed.

(** X17: the first run of a session starts from empty caches.  When it
    shows an answer in the single mode, it has made the five build calls
    and the two query calls for the text of the URL as it was entered,
    in this order. *)
Theorem first_run_pays_in_full (inp : Inputs) (w : World) (tr : list Event)
    (ds : list Display) (m1 : Machine) :
  process_button inp = true ->
  String.eqb (is_batch inp) "Batch Processing" = false ->
  script inp None w tr = (inr ds, m1) ->
  (forall msg : string, ~ In (Warning msg) ds) ->
  (forall msg : string, ~ In (Error msg) ds) ->
  trace m1
  = (tr ++ build_calls (pdf_url_input inp)
        ++ query_calls (pdf_url_input inp))%list.
Proof.
  intros Hb Hmode H Hw He.
  unfold script, sidebar, main_content in H. rewrite Hmode in H.
  cbn [v_process_button v_is_batch v_pdf_urls v_pdf_url v_query v_use_cache
       session_processor] in H.
  rewrite Hb, Hmode in H. unfold single_mode in H.
  destruct (filled (Some (pdf_url_input inp)));
    [|unfold ret in H; simplify_eq; exfalso; eapply Hw; by left].
  unfold try_except, bind, ret in H.
  destruct (process_pdf _ _ _ _) as [[e|a] m'] eqn:Hp; simplify_eq.
  - exfalso. eapply He. right. right. by left.
  - apply process_pdf_returns_trace in Hp.
    destruct Hp as [(_ & Hhit & _) | (_ & _ & Htr)]; [done|].
    exact Htr.
Qed.

End ScriptProperties.

(** ** The further properties on concrete inputs *)

(** A text of the batch mode with spaces and empty lines around two
    URLs. *)
Definition sample_text : string :=
  "  urlA  " ++ String newline ("urlB" ++ String newline (String newline " ")).

Definition batch_inputs : Inputs :=
  {| is_batch := "Batch Processing"; query_input := "Summarize.";
     pdf_urls_input := sample_text; pdf_url_input := "";
     use_cache_input := false; process_button := true |}.

Definition single_inputs : Inputs :=
  {| is_batch := "Single PDF"; query_input := "Summarize.";
     pdf_urls_input := ""; pdf_url_input := "urlA";
     use_cache_input := true; process_button := true |}.

Definition blank_inputs : Inputs :=
  {| is_batch := "Batch Processing"; query_input := "Summarize.";
     pdf_urls_input := String newline "  "; pdf_url_input := "";
     use_cache_input := true; process_button := true |}.

Lemma urls_list_clean_witness :
  urls_list sample_text = ["urlA"; "urlB"] /\
  In "urlA" (urls_list sample_text) /\
  clean_url "urlA".
Proof.
  assert (In "urlA" (urls_list sample_text)) as Hin by (vm_compute; by left).
  split; [vm_compute; reflexivity|]. split; [exact Hin|].
  exact (proj1 (urls_list_clean sample_text "urlA" Hin)).
Defined.

Lemma filled_iff_urls_witness :
  filled (Some sample_text) = true /\ urls_list sample_text <> [].
Proof.
  assert (filled (Some sample_text) = true) as Hf by (vm_compute; reflexivity).
  split; [exact Hf|]. exact (proj1 (filled_iff_urls sample_text) Hf).
Defined.

Lemma urls_list_join_lines_witness :
  Forall clean_url ["urlA"; "urlB"] /\
  urls_list (join_lines ["urlA"; "urlB"]) = ["urlA"; "urlB"].
Proof.
  assert (Forall clean_url ["urlA"; "urlB"]) as Hc.
  { repeat constructor; vm_compute; discriminate. }
  split; [exact Hc|]. exact (urls_list_join_lines _ Hc).
Defined.

Lemma create_index_success_trace_witness :
  let index := "index of %PDF urlA" in
  let m' := (create_index_from_pdf (C := test_env) "urlA" m0).2 in
  create_index_from_pdf (C := test_env) "urlA" m0 = (inr index, m') /\
  trace m' = (trace m0 ++ build_calls "urlA")%list.
Proof.
  intros index m'.
  assert (index_cache (self m0) !! "urlA" = None) as Hmiss
      by (vm_compute; reflexivity).
  assert (create_index_from_pdf (C := test_env) "urlA" m0 = (inr index, m'))
    as H by (vm_compute; reflexivity).
  split; [exact H|].
  exact (proj1 (create_index_success_trace (C := test_env)
                  "urlA" index m0 m' Hmiss H)).
Defined.

(** The build raises after the file is written: "temp.pdf" is still
    there. *)
Lemma no_cleanup_on_failure_witness :
  let e := Exception "Error creating index: embedding quota exceeded" in
  let m' := (create_index_from_pdf (C := test_env) "urlA" m_flaky).2 in
  create_index_from_pdf (C := test_env) "urlA" m_flaky = (inl e, m') /\
  temp_file (world m') = Some "%PDF urlA" /\
  calls OsRemove (trace m') = calls OsRemove (trace m_flaky).
Proof.
  intros e m'.
  assert (create_index_from_pdf (C := test_env) "urlA" m_flaky = (inl e, m'))
    as H by (vm_compute; reflexivity).
  assert (failed_calls_for OsRemove "urlA" (trace m')
          = failed_calls_for OsRemove "urlA" (trace m_flaky)) as Hf
      by (vm_compute; reflexivity).
  split; [exact H|]. split; [vm_compute; reflexivity|].
  exact (proj1 (no_cleanup_on_failure (C := test_env) "urlA" m_flaky m' e H Hf)).
Defined.

Lemma index_kept_when_cleanup_fails_witness :
  let m := fresh (C := test_env_keep) tw0 in
  let e := Exception "Error creating index: Permission denied: temp.pdf" in
  let m' := (create_index_from_pdf (C := test_env_keep) "urlA" m).2 in
  create_index_from_pdf (C := test_env_keep) "urlA" m = (inl e, m') /\
  exists index : string,
    index_cache (self m') = <[ "urlA" := index ]> (index_cache (self m)) /\
    create_index_from_pdf (C := test_env_keep) "urlA" m' = (inr index, m').
Proof.
  intros m e m'.
  assert (create_index_from_pdf (C := test_env_keep) "urlA" m = (inl e, m'))
    as H by (vm_compute; reflexivity).
  assert (failed_calls_for OsRemove "urlA" (trace m')
          <> failed_calls_for OsRemove "urlA" (trace m)) as Hf
      by (vm_compute; discriminate).
  split; [exact H|].
  exact (index_kept_when_cleanup_fails (C := test_env_keep) "urlA" m m' e H Hf).
Defined.

Lemma answer_cache_grows_witness :
  let out := process_pdf (C := test_env) "urlA" "q" true m0 in
  process_pdf (C := test_env) "urlA" "q" true m0 = (out.1, out.2) /\
  cache (self m0) ⊆ cache (self out.2) /\
  (forall key : string,
      key <> cache_key "urlA" "q" ->
      cache (self out.2) !! key = cache (self m0) !! key).
Proof.
  intros out.
  assert (process_pdf (C := test_env) "urlA" "q" true m0 = (out.1, out.2)) as H
      by (vm_compute; reflexivity).
  split; [exact H|].
  pose proof (proj1 (answer_cache_grows (C := test_env))
                "urlA" "q" true m0 out.2 out.1 H) as (Hsub & Hframe & _).
  split; [exact Hsub|exact Hframe].
Defined.

Lemma process_pdf_cost_witness :
  let answer := "answer to q from index of %PDF urlA" in
  let m' := (process_pdf (C := test_env) "urlA" "q" true m0).2 in
  process_pdf (C := test_env) "urlA" "q" true m0 = (inr answer, m') /\
  trace m' = (trace m0 ++ build_calls "urlA" ++ query_calls "urlA")%list.
Proof.
  intros answer m'.
  assert (process_pdf (C := test_env) "urlA" "q" true m0 = (inr answer, m'))
    as H by (vm_compute; reflexivity).
  split; [exact H|].
  destruct (process_pdf_cost (C := test_env) "urlA" "q" answer true m0 m' H)
    as [(_ & Hhit & _) | (_ & _ & Htr)].
  - vm_compute in Hhit. discriminate Hhit.
  - exact Htr.
Defined.

Lemma batch_answers_are_cached_witness :
  let out := batch_process_pdfs (C := test_env) ["urlA"; "urlB"] "Summarize." m0 in
  let item := {| url := "urlA";
                 result := "answer to Summarize. from index of %PDF urlA";
                 status := "success" |} in
  (exists items, out = (inr items, out.2) /\ In item items) /\
  process_pdf (C := test_env) "urlA" "Summarize." true out.2
  = (inr (result item), out.2).
Proof.
  intros out item.
  set (items := [item; {| url := "urlB";
                          result := "Error processing PDF: Error creating index: "
                                    ++ "All connection attempts failed";
                          status := "error" |}]).
  assert (batch_process_pdfs (C := test_env) ["urlA"; "urlB"] "Summarize." m0
          = (inr items, out.2)) as H by (vm_compute; reflexivity).
  assert (In item items) as Hin by (by left).
  split; [exists items; split; [exact H|exact Hin]|].
  exact (proj1 (batch_answers_are_cached (C := test_env)
                  ["urlA"; "urlB"] "Summarize." m0 out.2 items item
                  H Hin eq_refl)).
Defined.

Lemma blank_input_only_warns_witness :
  exists msg : string,
    script (C := test_env) (I := test_icons) blank_inputs None tw0 []
    = (inr [Warning msg], m0).
Proof.
  exact (blank_input_only_warns (C := test_env) (I := test_icons)
           blank_inputs None tw0 [] eq_refl eq_refl).
Defined.

Lemma single_mode_error_witness :
  let e := Exception ("Error processing PDF: Error creating index: "
                      ++ "All connection attempts failed") in
  let m' := (process_pdf (C := test_env) "urlB" "Summarize." true m0).2 in
  process_pdf (C := test_env) "urlB" "Summarize." true m0 = (inl e, m') /\
  exists cause : PyExc,
    str e = "Error processing PDF: " ++ str cause /\
    single_mode (C := test_env) (I := test_icons) (Some "urlB") "Summarize."
      true m0
    = (inr [Markdown "## Analysis Results"; Spinner "Analyzing PDF...";
            Error ("Error processing PDF: Error processing PDF: "
                   ++ str cause)], m').
Proof.
  intros e m'.
  assert (process_pdf (C := test_env) "urlB" "Summarize." true m0 = (inl e, m'))
    as H by (vm_compute; reflexivity).
  split; [exact H|].
  exact (single_mode_error (C := test_env) (I := test_icons)
           "urlB" "Summarize." true m0 m' e eq_refl H).
Defined.

Lemma batch_progress_witness :
  let out := batch_mode (C := test_env) (I := test_icons) (Some sample_text)
               "Summarize." m0 in
  exists ds, out = (inr ds, out.2) /\
             progress_values ds = [(1, 2); (2, 2)].
Proof.
  intros out.
  destruct (main_content_never_raises (C := test_env) (I := test_icons)
              (sidebar batch_inputs) m0) as (ds & m' & Hds).
  change (main_content (sidebar batch_inputs) m0) with out in Hds.
  exists ds.
  assert (out = (inr ds, out.2)) as H by (by rewrite Hds).
  split; [exact H|].
  exact (proj1 (proj2 (batch_progress (C := test_env) (I := test_icons)
                         sample_text "Summarize." m0 out.2 ds eq_refl H))).
Defined.

Lemma batch_expanders_witness :
  let out := batch_mode (C := test_env) (I := test_icons) (Some sample_text)
               "Summarize." m0 in
  exists ds, out = (inr ds, out.2) /\
             expander_labels ds = ["[page] urlA..."; "[page] urlB..."].
Proof.
  intros out.
  destruct (main_content_never_raises (C := test_env) (I := test_icons)
              (sidebar batch_inputs) m0) as (ds & m' & Hds).
  change (main_content (sidebar batch_inputs) m0) with out in Hds.
  exists ds.
  assert (out = (inr ds, out.2)) as H by (by rewrite Hds).
  split; [exact H|].
  exact (batch_expanders (C := test_env) (I := test_icons)
           sample_text "Summarize." m0 out.2 ds eq_refl H).
Defined.

Lemma session_keeps_answers_witness :
  let answer := "answer to Summarize. from index of %PDF urlA" in
  let m1 := (process_pdf (C := test_env) "urlA" "Summarize." true m0).2 in
  exists ds : list Display,
    In (Markdown answer) ds /\
    script (C := test_env) (I := test_icons) single_inputs None tw0 []
    = (inr ds, m1) /\
    script (C := test_env) (I := test_icons) single_inputs (Some (self m1))
      (world m1) (trace m1)
    = (inr ds, m1).
Proof.
  intros answer m1.
  assert (process_pdf (C := test_env) "urlA" "Summarize." true m0
          = (inr answer, m1)) as H by (vm_compute; reflexivity).
  exact (session_keeps_answers (C := test_env) (I := test_icons)
           single_inputs None tw0 [] answer m1 eq_refl eq_refl eq_refl eq_refl H).
Defined.

Lemma first_run_pays_in_full_witness :
  let out := script (C := test_env) (I := test_icons) single_inputs None tw0 [] in
  exists ds, out = (inr ds, out.2) /\
             trace out.2 = (build_calls "urlA" ++ query_calls "urlA")%list.
Proof.
  intros out.
  set (ds := [Markdown "## Analysis Results"; Spinner "Analyzing PDF...";
              Success "Analysis Complete!"; Markdown "### Document Analysis";
              Markdown "answer to Summarize. from index of %PDF urlA";
              Info "[i] This result is cached for faster future queries"]).
  assert (out = (inr ds, out.2)) as H by (vm_compute; reflexivity).
  assert (forall msg : string, ~ In (Warning msg) ds) as Hw.
  { intros msg Hin. simpl in Hin.
    repeat (destruct Hin as [Hin|Hin]; [discriminate Hin|]). exact Hin. }
  assert (forall msg : string, ~ In (Error msg) ds) as He.
  { intros msg Hin. simpl in Hin.
    repeat (destruct Hin as [Hin|Hin]; [discriminate Hin|]). exact Hin. }
  exists ds. split; [exact H|].
  exact (first_run_pays_in_full (C := test_env) (I := test_icons)
           single_inputs tw0 [] ds out.2 eq_refl eq_refl H Hw He).
Defined.
